(** * Image-to-LaTeX converter: the component's logic as state transformers

    A shallow embedding of [src/components/ImageToLatexConverter.js]: the
    React state of the component is a record, every handler is a function on
    that record, and what the browser delivers to an awaited promise (a file
    read, a timer, an HTTP response) is an explicit argument of the handler.

    A JavaScript string is modelled by the bytes of its UTF-8 encoding.
    A JavaScript number is modelled by an exact integer, or [NaN]: this is
    the code's double wherever the double is exact, which covers every file
    size, every product with 1024, and [parseInt] of a numeral of magnitude
    up to 2^53. *)

From Stdlib Require Import ZArith Lia Bool List Ascii DecimalString DecimalPos.
From stdpp Require Import base strings gmap.
Import ListNotations.

Local Open Scope string_scope.
Local Open Scope Z_scope.

Set Warnings "-register-all".

(** ** JavaScript primitives used by the component *)
Module JS.

(** A JavaScript number: [NaN], or an integer. The numbers of the
    component are file sizes, the parsed size setting and its products
    with 1024; as doubles they are these integers as long as the setting
    stays within 2^53 in magnitude, and the statements that let the
    setting vary say so. Fractions appear only in the size message, which
    is computed from the integers ([div], [toFixed2]). *)
Inductive number : Type :=
| NaN
| Num (z : Z).

(** [a * b] *)
Definition mul (a b : number) : number :=
  match a, b with
  | Num x, Num y => Num (x * y)
  | _, _ => NaN
  end.

(** [a > b]: every comparison with [NaN] is false. *)
Definition gt (a b : number) : bool :=
  match a, b with
  | Num x, Num y => y <? x
  | _, _ => false
  end.

(** Truthiness of a string: only the empty string is falsy. *)
Definition truthy (s : string) : bool :=
  match s with
  | EmptyString => false
  | String _ _ => true
  end.

(** [a || b] on strings. *)
Definition or_else (a b : string) : string :=
  if truthy a then a else b.

(** [String(n)] for an integer. *)
Definition decimal (z : Z) : string :=
  NilZero.string_of_int (Z.to_int z).

Definition to_string (n : number) : string :=
  match n with
  | NaN => "NaN"
  | Num z => decimal z
  end.

(** White space as [trim] and [parseInt] see it: the WhiteSpace and
    LineTerminator code points, each by the bytes of its UTF-8 encoding. *)

(** TAB, LF, VT, FF, CR and SP. *)
Definition white1 (a : ascii) : bool :=
  let n := N_of_ascii a in
  ((9 <=? n) && (n <=? 13))%N || (n =? 32)%N.

(** U+00A0, encoded C2 A0. *)
Definition white2 (a b : ascii) : bool :=
  ((N_of_ascii a =? 194) && (N_of_ascii b =? 160))%N.

(** U+1680 (E1 9A 80); U+2000 to U+200A, U+2028, U+2029 and U+202F
    (E2 80 80 to 8A, A8, A9, AF); U+205F (E2 81 9F); U+3000 (E3 80 80);
    U+FEFF (EF BB BF). *)
Definition white3 (a b c : ascii) : bool :=
  let x := N_of_ascii a in
  let y := N_of_ascii b in
  let z := N_of_ascii c in
  ((x =? 225) && (y =? 154) && (z =? 128)
   || (x =? 226) && (y =? 128) &&
      ((128 <=? z) && (z <=? 138) || (z =? 168) || (z =? 169) || (z =? 175))
   || (x =? 226) && (y =? 129) && (z =? 159)
   || (x =? 227) && (y =? 128) && (z =? 128)
   || (x =? 239) && (y =? 187) && (z =? 191))%N.

(** The first byte of a two-byte, of a three-byte white-space character. *)
Definition starts2 (a : ascii) : bool := (N_of_ascii a =? 194)%N.

Definition starts3 (a : ascii) : bool :=
  let x := N_of_ascii a in
  ((x =? 225) || (x =? 226) || (x =? 227) || (x =? 239))%N.

(** Number of bytes of the white-space character at the head of a string,
    0 when it does not start with one. *)
Definition white_len (s : string) : nat :=
  match s with
  | EmptyString => 0
  | String a r =>
      if white1 a then 1
      else if starts2 a then
        match r with
        | String b _ => if white2 a b then 2 else 0
        | EmptyString => 0
        end
      else if starts3 a then
        match r with
        | String b (String c _) => if white3 a b c then 3 else 0
        | _ => 0
        end
      else 0
  end%nat.

(** [s.trimStart()] *)
Fixpoint trimStart (s : string) : string :=
  match s with
  | EmptyString => EmptyString
  | String a r =>
      if white1 a then trimStart r
      else if starts2 a then
        match r with
        | String b r2 => if white2 a b then trimStart r2 else s
        | EmptyString => s
        end
      else if starts3 a then
        match r with
        | String b (String c r3) => if white3 a b c then trimStart r3 else s
        | _ => s
        end
      else s
  end.

(** [s.trimEnd()]: the string is cut where what remains is white space
    only. *)
Fixpoint trimEnd (s : string) : string :=
  match s with
  | EmptyString => EmptyString
  | String a r =>
      match trimStart s with
      | EmptyString => EmptyString
      | String _ _ => String a (trimEnd r)
      end
  end.

(** [s.trim()] *)
Definition trim (s : string) : string := trimEnd (trimStart s).

(** [hay.includes(needle)] *)
Fixpoint includes (needle hay : string) : bool :=
  String.prefix needle hay ||
  match hay with
  | EmptyString => false
  | String _ r => includes needle r
  end.

(** Value of a digit character in radix up to 36. *)
Definition digit_value (c : ascii) : option Z :=
  let n := Z.of_N (N_of_ascii c) in
  if (48 <=? n) && (n <=? 57) then Some (n - 48)
  else if (97 <=? n) && (n <=? 122) then Some (n - 87)
  else if (65 <=? n) && (n <=? 90) then Some (n - 55)
  else None.

(** Longest prefix of digits of the radix, as a number; [None] when that
    prefix is empty. *)
Fixpoint parse_digits (radix : Z) (s : string) (acc : option Z) : option Z :=
  match s with
  | EmptyString => acc
  | String c r =>
      match digit_value c with
      | Some d =>
          if d <? radix
          then parse_digits radix r (Some (default 0 acc * radix + d))
          else acc
      | None => acc
      end
  end.

(** [parseInt(s)] with no radix argument: leading white space is skipped,
    a sign is read, a [0x]/[0X] prefix selects radix 16, and the longest
    run of digits is converted; an empty run gives [NaN]. *)
Definition parseInt (s : string) : number :=
  let s := trimStart s in
  let '(sign, s) :=
    match s with
    | String "-" r => (-1, r)
    | String "+" r => (1, r)
    | _ => (1, s)
    end in
  let '(radix, s) :=
    match s with
    | String "0" (String "x" r) => (16, r)
    | String "0" (String "X" r) => (16, r)
    | _ => (10, s)
    end in
  match parse_digits radix s None with
  | None => NaN
  | Some n => Num (sign * n)
  end.

(** [a / b] where [b] divides [a], the one division of integers the
    component prints unformatted (its divisor is the constant
    [1024 * 1024]); a fractional quotient has no value in this model of
    numbers and is cut to its integer part. *)
Definition div (a b : number) : number :=
  match a, b with
  | Num x, Num y => if y =? 0 then NaN else Num (x / y)
  | _, _ => NaN
  end.

(** [x.toFixed(2)] for the non-negative quotient [x = num / den]: the
    integer [n] closest to [100 * x], the larger one on a tie, printed
    with two decimals. *)
Definition toFixed2 (num den : Z) : string :=
  let n := (200 * num + den) / (2 * den) in
  let frac := n mod 100 in
  decimal (n / 100) +:+ "." +:+
  (if frac <? 10 then "0" else "") +:+ decimal frac.

(** [s.split(',')[1]]: the text between the first and the second comma,
    [None] (undefined) when there is no comma. *)
Fixpoint upto_comma (s : string) : string :=
  match s with
  | EmptyString => EmptyString
  | String c r => if Ascii.eqb c "," then EmptyString else String c (upto_comma r)
  end.

Fixpoint split_comma_1 (s : string) : option string :=
  match s with
  | EmptyString => None
  | String c r => if Ascii.eqb c "," then Some (upto_comma r) else split_comma_1 r
  end.

End JS.

(** ** Configuration *)

(** [process.env] as the component sees it: [None] when [process] (or its
    [env]) does not exist in the page, otherwise the variables that are set. *)
Definition getEnvVar (process : option (gmap string string))
    (name defaultValue : string) : string :=
  match process with
  | None => defaultValue
  | Some env =>
      match env !! name with
      | Some v => JS.or_else v defaultValue
      | None => defaultValue
      end
  end.

Definition API_KEY (process : option (gmap string string)) : string :=
  getEnvVar process "REACT_APP_ANTHROPIC_API_KEY" "".

Definition MAX_FILE_SIZE (process : option (gmap string string)) : JS.number :=
  JS.mul (JS.mul (JS.parseInt (getEnvVar process "REACT_APP_MAX_FILE_SIZE_MB" "25"))
                 (JS.Num 1024))
         (JS.Num 1024).

Definition SUPPORTED_FORMATS : list string :=
  ["image/png"; "image/jpeg"; "image/jpg"; "image/gif"; "image/webp"].

(** ** Validation *)

(** What the component reads of a [File]: its reported MIME type and its
    size in bytes. *)
Record File : Type := mkFile {
  ftype : string;
  fsize : N;
}.

(** [SUPPORTED_FORMATS.includes(t)] *)
Definition supported (t : string) : bool :=
  existsb (String.eqb t) SUPPORTED_FORMATS.

(** The size message. [MAX_FILE_SIZE] is a multiple of [1024 * 1024], so the
    quotient printed first is an integer ([JS.div]). *)
Definition size_message (max : JS.number) (size : N) : string :=
  "File size must be less than " +:+
  JS.to_string (JS.div max (JS.Num (1024 * 1024))) +:+
  "MB. Current size: " +:+ JS.toFixed2 (Z.of_N size) (1024 * 1024) +:+ "MB".

(** [validateFile]: [None] is the source's [null] (the file is valid),
    [Some msg] the error text. The argument is [None] when no file was
    handed over. *)
Definition validateFile (process : option (gmap string string))
    (file : option File) : option string :=
  match file with
  | None => Some "No file selected"
  | Some f =>
      if negb (supported (ftype f)) then
        Some "Please upload a valid image file (PNG, JPG, JPEG, GIF, WebP)"
      else if JS.gt (JS.Num (Z.of_N (fsize f))) (MAX_FILE_SIZE process) then
        Some (size_message (MAX_FILE_SIZE process) (fsize f))
      else None
  end.

(** ** Component state *)

(** The request sent to the inference endpoint. [data] is [None] when the
    data URL had no comma ([split(',')[1]] undefined). *)
Record Request : Type := mkRequest {
  url : string;
  method : string;
  content_type : string;
  x_api_key : string;
  anthropic_version : string;
  model : string;
  max_tokens : Z;
  media_type : string;
  data : option string;
  text : string;
}.

(** The [useState] cells and the file input behind [fileInputRef], with the
    two things the handlers do to the outside: the requests passed to
    [fetch] and the text put on the clipboard. *)
Record State : Type := mkState {
  image : option File;
  imagePreview : option string;
  instructions : string;
  latexCode : string;
  isConverting : bool;
  copySuccess : bool;
  error : string;
  dragActive : bool;
  fileInput : option string;
  fetched : list Request;
  clipboard : option string;
}.

Definition initial : State :=
  {| image := None; imagePreview := None; instructions := ""; latexCode := "";
     isConverting := false; copySuccess := false; error := "";
     dragActive := false; fileInput := Some ""; fetched := []; clipboard := None |}.

Definition setImage (v : option File) (s : State) : State :=
  mkState v (imagePreview s) (instructions s) (latexCode s) (isConverting s)
          (copySuccess s) (error s) (dragActive s) (fileInput s) (fetched s) (clipboard s).
Definition setImagePreview (v : option string) (s : State) : State :=
  mkState (image s) v (instructions s) (latexCode s) (isConverting s)
          (copySuccess s) (error s) (dragActive s) (fileInput s) (fetched s) (clipboard s).
Definition setInstructions (v : string) (s : State) : State :=
  mkState (image s) (imagePreview s) v (latexCode s) (isConverting s)
          (copySuccess s) (error s) (dragActive s) (fileInput s) (fetched s) (clipboard s).
Definition setLatexCode (v : string) (s : State) : State :=
  mkState (image s) (imagePreview s) (instructions s) v (isConverting s)
          (copySuccess s) (error s) (dragActive s) (fileInput s) (fetched s) (clipboard s).
Definition setIsConverting (v : bool) (s : State) : State :=
  mkState (image s) (imagePreview s) (instructions s) (latexCode s) v
          (copySuccess s) (error s) (dragActive s) (fileInput s) (fetched s) (clipboard s).
Definition setCopySuccess (v : bool) (s : State) : State :=
  mkState (image s) (imagePreview s) (instructions s) (latexCode s) (isConverting s)
          v (error s) (dragActive s) (fileInput s) (fetched s) (clipboard s).
Definition setError (v : string) (s : State) : State :=
  mkState (image s) (imagePreview s) (instructions s) (latexCode s) (isConverting s)
          (copySuccess s) v (dragActive s) (fileInput s) (fetched s) (clipboard s).
Definition setDragActive (v : bool) (s : State) : State :=
  mkState (image s) (imagePreview s) (instructions s) (latexCode s) (isConverting s)
          (copySuccess s) (error s) v (fileInput s) (fetched s) (clipboard s).
Definition setFileInput (v : option string) (s : State) : State :=
  mkState (image s) (imagePreview s) (instructions s) (latexCode s) (isConverting s)
          (copySuccess s) (error s) (dragActive s) v (fetched s) (clipboard s).
Definition doFetch (r : Request) (s : State) : State :=
  mkState (image s) (imagePreview s) (instructions s) (latexCode s) (isConverting s)
          (copySuccess s) (error s) (dragActive s) (fileInput s) (fetched s ++ [r]) (clipboard s).
Definition setClipboard (v : string) (s : State) : State :=
  mkState (image s) (imagePreview s) (instructions s) (latexCode s) (isConverting s)
          (copySuccess s) (error s) (dragActive s) (fileInput s) (fetched s) (Some v).

(** ** Upload *)

(** How the [FileReader] of an upload ends: [onload] with the data URL, or
    [onerror]. *)
Inductive ReadOutcome : Type :=
| Loaded (dataUrl : string)
| ReadFailed.

(** [if (validationError)]: [null] and the empty string are falsy. *)
Definition rejected (validationError : option string) : bool :=
  match validationError with
  | Some msg => JS.truthy msg
  | None => false
  end.

(** The synchronous part of [handleImageUpload], up to [readAsDataURL]. *)
Definition handleImageUpload (process : option (gmap string string))
    (file : option File) (s : State) : State :=
  let validationError := validateFile process file in
  if rejected validationError then setError (default "" validationError) s
  else setLatexCode "" (setError "" (setImage file s)).

(** The reader's callbacks. *)
Definition reader_done (r : ReadOutcome) (s : State) : State :=
  match r with
  | Loaded u => setImagePreview (Some u) s
  | ReadFailed => setError "Failed to read the image file" s
  end.

(** [handleDrop]: the first of the dropped files, if any, is uploaded. *)
Definition handleDrop (process : option (gmap string string))
    (files : list File) (s : State) : State :=
  let s := setDragActive false s in
  match files with
  | [] => s
  | file :: _ => handleImageUpload process (Some file) s
  end.

(** An upload that runs to its end: the handler, then, when the file was
    accepted and a reader was started, the reader's callback. *)
Definition upload (process : option (gmap string string))
    (file : option File) (r : ReadOutcome) (s : State) : State :=
  let s' := handleImageUpload process file s in
  if rejected (validateFile process file) then s' else reader_done r s'.

(** ** Parsed JSON and property access *)

(** A parsed response body. A number is known by what the component can
    see of it: whether it is zero, and the text it prints as. *)
Inductive Json : Type :=
| JNull
| JBool (b : bool)
| JNumber (nonzero : bool) (shown : string)
| JString (s : string)
| JArray (items : list Json)
| JObject (fields : list (string * Json)).

(** A JavaScript value obtained from a body: [undefined] or a JSON value. *)
Inductive Value : Type :=
| Undefined
| Of (j : Json).

(** Truthiness of a value. *)
Definition truthy (v : Value) : bool :=
  match v with
  | Undefined | Of JNull => false
  | Of (JBool b) => b
  | Of (JNumber nonzero _) => nonzero
  | Of (JString s) => JS.truthy s
  | Of (JArray _) | Of (JObject _) => true
  end.

(** Last binding of a key: [JSON.parse] lets a later duplicate win. *)
Fixpoint field (key : string) (fields : list (string * Json)) : Value :=
  match fields with
  | [] => Undefined
  | (k, v) :: rest =>
      match field key rest with
      | Undefined => if String.eqb k key then Of v else Undefined
      | found => found
      end
  end.

(** The [TypeError]s the engine can raise on a parsed body: a property
    read on [null] or [undefined], a call of something that is not a
    function, and the conversion to a string of an object that has no
    callable [toString] left. *)
Inductive TypeError : Type :=
| CannotRead (what key : string)
| NotAFunction (expr : string)
| CannotConvert.

(** The text of [err.message] for each of them is the engine's own. *)
Class Engine : Type := {
  wording : TypeError -> string;
}.

(** [v.key] and [v[0]] (key ["0"]) for the keys the component reads:
    [error], [message], [content], [0], [text]. None of them is inherited
    from a prototype, so primitives answer [undefined], except a string
    asked for its first character (of which only the presence matters
    afterwards). *)
Definition get (key : string) (v : Value) : Value + TypeError :=
  match v with
  | Undefined => inr (CannotRead "undefined" key)
  | Of JNull => inr (CannotRead "null" key)
  | Of (JObject fields) => inl (field key fields)
  | Of (JArray items) =>
      inl (if String.eqb key "0"
           then match items with [] => Undefined | x :: _ => Of x end
           else Undefined)
  | Of (JString s) =>
      inl (if String.eqb key "0"
           then match s with
                | EmptyString => Undefined
                | String c _ => Of (JString (String c EmptyString))
                end
           else Undefined)
  | Of (JBool _) | Of (JNumber _ _) => inl Undefined
  end.

(** [Array.prototype.join] on elements already turned into strings; the
    first element that failed to convert fails the whole. *)
Fixpoint join (sep : string) (l : list (string + TypeError)) : string + TypeError :=
  match l with
  | [] => inl ""
  | [x] => x
  | x :: rest =>
      match x, join sep rest with
      | inl a, inl b => inl (a +:+ sep +:+ b)
      | inr e, _ => inr e
      | _, inr e => inr e
      end
  end.

(** The string a value turns into inside a template literal. An array
    joins its elements with commas, [null] counting as empty. An object
    uses [Object.prototype.toString], unless a key [toString] of its own
    (never a function in parsed JSON) hides it: then there is nothing to
    call and the conversion throws. *)
Fixpoint json_to_string (j : Json) : string + TypeError :=
  match j with
  | JNull => inl "null"
  | JBool true => inl "true"
  | JBool false => inl "false"
  | JNumber _ shown => inl shown
  | JString s => inl s
  | JArray items =>
      join "," (map (fun x => match x with
                              | JNull => inl ""
                              | _ => json_to_string x
                              end) items)
  | JObject fields =>
      match field "toString" fields with
      | Undefined => inl "[object Object]"
      | Of _ => inr CannotConvert
      end
  end.

Definition to_string (v : Value) : string + TypeError :=
  match v with
  | Undefined => inl "undefined"
  | Of j => json_to_string j
  end.

(** The wording of V8, the engine of Chrome and Node. *)
Definition v8 : Engine := {|
  wording e :=
    match e with
    | CannotRead what key =>
        "Cannot read properties of " +:+ what +:+ " (reading '" +:+ key +:+ "')"
    | NotAFunction expr => expr +:+ " is not a function"
    | CannotConvert => "Cannot convert object to primitive value"
    end
|}.

(** ** What the browser answers during one conversion *)

(** [response.json()]: the parsed body, or a rejection with its message. *)
Inductive JsonOutcome : Type :=
| Parsed (body : Json)
| Unparsable (message : string).

Record Response : Type := mkResponse {
  ok : bool;
  status : Z;
  json : JsonOutcome;
}.

(** [fetch]: a response, or a rejection with its message (Chrome's is
    "Failed to fetch"). *)
Inductive FetchOutcome : Type :=
| Responded (r : Response)
| FetchFailed (message : string).

(** The answers to the awaits of one [convertToLatex] call; the demo timer
    always fires and has no answer to give. *)
Record Attempt : Type := mkAttempt {
  read : ReadOutcome;
  net : FetchOutcome;
}.

(** ** Handlers with [return], [throw] and [try]/[catch]/[finally] *)

Inductive completion (A : Type) : Type :=
| Normal (a : A)
| Returned
| Thrown (message : string).
Arguments Normal {A} a.
Arguments Returned {A}.
Arguments Thrown {A} message.

Definition Cmd (A : Type) : Type := State -> State * completion A.

Definition pure {A} (a : A) : Cmd A := fun s => (s, Normal a).

Definition bind {A B} (c : Cmd A) (k : A -> Cmd B) : Cmd B :=
  fun s =>
    match c s with
    | (s', Normal a) => k a s'
    | (s', Returned) => (s', Returned)
    | (s', Thrown m) => (s', Thrown m)
    end.

Declare Scope cmd_scope.
Delimit Scope cmd_scope with cmd.
Notation "x <- c ;; k" := (bind c (fun x => k))
  (at level 100, c at next level, right associativity) : cmd_scope.
Notation "c ;; k" := (bind c (fun _ => k))
  (at level 100, right associativity) : cmd_scope.

(** A state setter as a statement. *)
Definition call (f : State -> State) : Cmd unit := fun s => (f s, Normal tt).

Definition return_ {A} : Cmd A := fun s => (s, Returned).

Definition throw {A} (message : string) : Cmd A := fun s => (s, Thrown message).

(** Everything from here on is for an arbitrary engine. *)
Section Host.

Context {engine : Engine}.

(** The result of an operation that may throw a [TypeError]. *)
Definition lift {A} (r : A + TypeError) : Cmd A :=
  match r with
  | inl a => pure a
  | inr e => throw (wording e)
  end.

(** [if (cond) { body }] *)
Definition when (cond : bool) (body : Cmd unit) : Cmd unit :=
  if cond then body else pure tt.

(** [try { body } catch (err) { handler err.message } finally { cleanup }]:
    the cleanup runs however the body or the handler ends, and keeps their
    completion unless it ends abruptly itself. *)
Definition try_catch_finally (body : Cmd unit) (handler : string -> Cmd unit)
    (cleanup : Cmd unit) : Cmd unit :=
  fun s =>
    let '(s1, c1) := body s in
    let '(s2, c2) :=
      match c1 with
      | Thrown m => handler m s1
      | _ => (s1, c1)
      end in
    let '(s3, c3) := cleanup s2 in
    (s3, match c3 with Normal _ => c2 | _ => c3 end).

(** ** Conversion *)

Definition demoLatex : string :=
  "% Demo LaTeX output - Add your API key for real conversion
\documentclass{article}
\usepackage{amsmath}
\usepackage{amsfonts}

\begin{document}

% This is a demo response. To get real conversions:
% 1. Add your Anthropic API key to .env.local
% 2. Set REACT_APP_ANTHROPIC_API_KEY=your_key_here

\begin{equation}
    E = mc^2
\end{equation}

\begin{align}
    \nabla \cdot \vec{E} &= \frac{\rho}{\epsilon_0} \\
    \nabla \cdot \vec{B} &= 0
\end{align}

\end{document}".

Definition prompt_head : string :=
  "Please analyze this image and convert it to LaTeX code suitable for Overleaf. 

IMPORTANT INSTRUCTIONS:
- Generate clean, properly formatted LaTeX code
- Use standard LaTeX packages when needed (\usepackage{} statements)
- For equations, use appropriate math environments ($, \begin{equation}, \begin{align}, etc.)
- For tables, use tabular environment with proper alignment
- For diagrams, provide TikZ code if possible, otherwise describe what's needed
- Ensure the code is copy-paste ready for Overleaf
- Include necessary package imports at the top if needed
- Use proper spacing and indentation
- Add comments for complex sections

".

Definition prompt_tail : string :=
  "

Respond with ONLY the LaTeX code, no explanations or markdown formatting. Start directly with the LaTeX code.".

Definition newline : string := String (ascii_of_N 10) EmptyString.

Definition prompt (instructions : string) : string :=
  prompt_head +:+
  (if JS.truthy instructions
   then newline +:+ "SPECIAL USER INSTRUCTIONS:" +:+ newline +:+ instructions +:+ newline
   else "") +:+
  prompt_tail.

Definition request (key : string) (img : File) (base64Data : option string)
    (instructions : string) : Request :=
  {| url := "https://api.anthropic.com/v1/messages";
     method := "POST";
     content_type := "application/json";
     x_api_key := key;
     anthropic_version := "2023-06-01";
     model := "claude-sonnet-4-20250514";
     max_tokens := 2000;
     media_type := ftype img;
     data := base64Data;
     text := prompt instructions |}.

Local Open Scope cmd_scope.

(** The promise around the second [FileReader]: the base64 part of the data
    URL, or the rejection. *)
Definition read_base64 (r : ReadOutcome) : Cmd (option string) :=
  match r with
  | Loaded dataUrl => pure (JS.split_comma_1 dataUrl)
  | ReadFailed => throw "Failed to read file"
  end.

(** [await fetch(url, init)]: the call is made, then answered. *)
Definition fetch (req : Request) (o : FetchOutcome) : Cmd Response :=
  fun s =>
    (doFetch req s,
     match o with
     | Responded r => Normal r
     | FetchFailed m => Thrown m
     end).

(** [await response.json()] *)
Definition response_json (r : Response) : Cmd Value :=
  match json r with
  | Parsed body => pure (Of body)
  | Unparsable m => throw m
  end.

(** [await response.json().catch(() => ({}))] *)
Definition response_json_or_empty (r : Response) : Cmd Value :=
  match json r with
  | Parsed body => pure (Of body)
  | Unparsable _ => pure (Of (JObject []))
  end.

(** [errorData.error?.message || 'Unknown error'], as spliced into the
    template literal. *)
Definition error_detail (errorData : Value) : Cmd string :=
  err <- lift (get "error" errorData) ;;
  message <- match err with
             | Undefined | Of JNull => pure Undefined
             | _ => lift (get "message" err)
             end ;;
  if truthy message then lift (to_string message) else pure "Unknown error".

(** [!data.content || !data.content[0] || !data.content[0].text] *)
Definition malformed (data : Value) : Cmd bool :=
  content <- lift (get "content" data) ;;
  if negb (truthy content) then pure true else
  first <- lift (get "0" content) ;;
  if negb (truthy first) then pure true else
  txt <- lift (get "text" first) ;;
  pure (negb (truthy txt)).

(** [data.content[0].text.trim()]: only a string has [trim]. *)
Definition trimmed_text (data : Value) : Cmd string :=
  content <- lift (get "content" data) ;;
  first <- lift (get "0" content) ;;
  txt <- lift (get "text" first) ;;
  match txt with
  | Of (JString t) => pure (JS.trim t)
  | Undefined => lift (inr (CannotRead "undefined" "trim"))
  | Of JNull => lift (inr (CannotRead "null" "trim"))
  | _ => lift (inr (NotAFunction "data.content[0].text.trim"))
  end.

(** The [catch] block, on [err.message] (the console trace it starts
    with is not part of the state). *)
Definition on_error (message : string) : Cmd unit :=
  if JS.includes "401" message then
    call (setError "Invalid API key. Please check your Anthropic API key in the .env.local file.")
  else if JS.includes "403" message then
    call (setError "Access forbidden. Please check your API key permissions.")
  else if JS.includes "429" message then
    call (setError "Rate limit exceeded. Please wait a moment and try again.")
  else if JS.includes "Failed to fetch" message then
    call (setError "Network error. Please check your internet connection and try again.")
  else
    call (setError ("Failed to convert image to LaTeX: " +:+ message)).

(** The [try] statement of [convertToLatex], with the image and the
    instructions of the render in which it was called. *)
Definition tryConvert (process : option (gmap string string))
    (img : File) (instructions : string) (o : Attempt) : Cmd unit :=
  try_catch_finally
    (when (negb (JS.truthy (API_KEY process)))
       (call (setLatexCode demoLatex) ;; return_) ;;
     base64Data <- read_base64 (read o) ;;
     response <- fetch (request (API_KEY process) img base64Data
                                instructions) (net o) ;;
     when (negb (ok response))
       (errorData <- response_json_or_empty response ;;
        detail <- error_detail errorData ;;
        throw ("API request failed: " +:+ JS.decimal (status response)
               +:+ " - " +:+ detail)) ;;
     data <- response_json response ;;
     bad <- malformed data ;;
     when bad (throw "Invalid response format from API") ;;
     generatedLatex <- trimmed_text data ;;
     call (setLatexCode generatedLatex))
    on_error
    (call (setIsConverting false)).

(** [convertToLatex], run to its end against the answers [o]. *)
Definition convertToLatex (process : option (gmap string string))
    (o : Attempt) : Cmd unit :=
  fun s0 =>
    match image s0 with
    | None => (call (setError "Please upload an image first") ;; return_) s0
    | Some img =>
        (call (setIsConverting true) ;;
         call (setError "") ;;
         call (setLatexCode "") ;;
         tryConvert process img (instructions s0) o) s0
    end.

(** The state in which a conversion leaves the component. *)
Definition convert (process : option (gmap string string)) (o : Attempt)
    (s : State) : State :=
  fst (convertToLatex process o s).

(** ** Copy and reset *)

(** [copyToClipboard]: [primary] tells whether [clipboard.writeText]
    resolves, [fallback] whether [execCommand('copy')] copies. The timer it
    starts is [copy_timeout]. *)
Definition copyToClipboard (primary fallback : bool) (s : State) : State :=
  if negb (JS.truthy (latexCode s)) then s
  else if primary then setCopySuccess true (setClipboard (latexCode s) s)
  else setCopySuccess true
         (if fallback then setClipboard (latexCode s) s else s).

Definition copy_timeout (s : State) : State := setCopySuccess false s.

Definition resetTool (s : State) : State :=
  let s := setImage None s in
  let s := setImagePreview None s in
  let s := setLatexCode "" s in
  let s := setInstructions "" s in
  let s := setError "" s in
  let s := setCopySuccess false s in
  match fileInput s with
  | Some _ => setFileInput (Some "") s
  | None => s
  end.

(** ** Sequences of user operations *)

(** Operations that do not overlap: each one runs to its end, callbacks
    included, before the next begins. Sessions in which they overlap are
    the [World]s below. *)

Inductive Op : Type :=
| Upload (file : option File) (r : ReadOutcome)
| Convert (o : Attempt)
| Copy (primary fallback : bool)
| Reset
| CopyTimeout
| DismissError
| EditInstructions (v : string).

Definition step (process : option (gmap string string)) (op : Op)
    (s : State) : State :=
  match op with
  | Upload file r => upload process file r s
  | Convert o => convert process o s
  | Copy primary fallback => copyToClipboard primary fallback s
  | Reset => resetTool s
  | CopyTimeout => copy_timeout s
  | DismissError => setError "" s
  | EditInstructions v => setInstructions v s
  end.

Fixpoint run (process : option (gmap string string)) (ops : list Op)
    (s : State) : State :=
  match ops with
  | [] => s
  | op :: rest => run process rest (step process op s)
  end.

(** Result and error are not both shown. *)
Definition exclusive (s : State) : Prop :=
  latexCode s = "" \/ error s = "".

(** ** Drag events *)

(** [handleDragOver] only prevents the browser's default. *)
Definition handleDragOver (s : State) : State := s.

Definition handleDragEnter (s : State) : State := setDragActive true s.

(** [handleDragLeave]: [inside] is
    [e.currentTarget.contains(e.relatedTarget)]. *)
Definition handleDragLeave (inside : bool) (s : State) : State :=
  if negb inside then setDragActive false s else s.

(** ** What the render shows *)

(** [disabled={!image || isConverting}] of the convert button. *)
Definition convertDisabled (s : State) : bool :=
  negb (match image s with Some _ => true | None => false end) || isConverting s.

(** The label of the convert button. *)
Definition convertLabel (process : option (gmap string string)) (s : State) : string :=
  if isConverting s
  then (if JS.truthy (API_KEY process) then "Converting..." else "Generating Demo...")
  else (if JS.truthy (API_KEY process) then "Convert to LaTeX" else "Try Demo Mode").

(** [{latexCode && ...}]: the copy button and the result panel. *)
Definition copyShown (s : State) : bool := JS.truthy (latexCode s).

(** [{error && ...}]: the error banner. *)
Definition errorShown (s : State) : bool := JS.truthy (error s).

(** [{!API_KEY && ...}]: the demo-mode warning. *)
Definition demoWarningShown (process : option (gmap string string)) : bool :=
  negb (JS.truthy (API_KEY process)).

(** ** Sessions: one handler or callback at a time *)

(** The handlers are asynchronous: [convertToLatex] and [copyToClipboard]
    suspend at their [await]s, and the [FileReader] of an upload and the
    timer of a copy call back later. Between the synchronous part of a
    handler and its continuation any other handler may run. A [World] is
    the component's state together with what is still in flight. *)
Record World : Type := mkWorld {
  ui : State;
  (** the conversion in flight, with the image and the instructions its
      closure holds *)
  converting : option (File * string);
  (** readers of accepted uploads that have not called back *)
  readers : nat;
  (** clipboard writes in flight, oldest first, with the text each closure
      holds *)
  copies : list string;
  (** acknowledgment timers that have not fired *)
  timers : nat
}.

Inductive Event : Type :=
| PickFile (file : option File)       (* [onChange] of the file input *)
| DropFiles (files : list File)       (* [onDrop] *)
| ReaderSettles (r : ReadOutcome)     (* [reader.onload] / [reader.onerror] *)
| ClickConvert                        (* the convert button *)
| ConversionSettles (o : Attempt)     (* the rest of [convertToLatex] *)
| ClickCopy                           (* the copy button *)
| CopySettles (primary fallback : bool) (* the rest of [copyToClipboard] *)
| TimerFires                          (* [setTimeout] of a copy *)
| ClickReset                          (* the remove-image button *)
| ClickDismiss                        (* the error banner's button *)
| TypeInstructions (v : string)
| DragEnter
| DragLeave (inside : bool)
| DragOver.

(** One event. The convert button does nothing while it is disabled; the
    copy button is rendered only with a result, and [copyToClipboard]
    returns at once without one. A continuation runs against the state of
    the moment it runs, not of the moment its handler was called. All the
    state updates of the [try] statement of [convertToLatex] happen after
    the last [await] its path reaches, so [ConversionSettles] performs
    them together. *)
Definition react (process : option (gmap string string)) (e : Event)
    (w : World) : World :=
  match e with
  | PickFile file =>
      mkWorld (handleImageUpload process file (ui w)) (converting w)
              (if rejected (validateFile process file) then readers w
               else S (readers w))
              (copies w) (timers w)
  | DropFiles files =>
      mkWorld (handleDrop process files (ui w)) (converting w)
              (match files with
               | [] => readers w
               | file :: _ =>
                   if rejected (validateFile process (Some file)) then readers w
                   else S (readers w)
               end)
              (copies w) (timers w)
  | ReaderSettles r =>
      match readers w with
      | O => w
      | S n => mkWorld (reader_done r (ui w)) (converting w) n
                       (copies w) (timers w)
      end
  | ClickConvert =>
      if convertDisabled (ui w) then w
      else
        match image (ui w) with
        | None => w
        | Some img =>
            mkWorld (setLatexCode "" (setError "" (setIsConverting true (ui w))))
                    (Some (img, instructions (ui w)))
                    (readers w) (copies w) (timers w)
        end
  | ConversionSettles o =>
      match converting w with
      | None => w
      | Some (img, instr) =>
          mkWorld (fst (tryConvert process img instr o (ui w))) None
                  (readers w) (copies w) (timers w)
      end
  | ClickCopy =>
      if JS.truthy (latexCode (ui w))
      then mkWorld (ui w) (converting w) (readers w)
                   (copies w ++ [latexCode (ui w)])%list (timers w)
      else w
  | CopySettles primary fallback =>
      match copies w with
      | [] => w
      | text :: rest =>
          mkWorld (setCopySuccess true
                     (if primary || fallback then setClipboard text (ui w)
                      else ui w))
                  (converting w) (readers w) rest (S (timers w))
      end
  | TimerFires =>
      match timers w with
      | O => w
      | S n => mkWorld (copy_timeout (ui w)) (converting w) (readers w)
                       (copies w) n
      end
  | ClickReset =>
      mkWorld (resetTool (ui w)) (converting w) (readers w) (copies w) (timers w)
  | ClickDismiss =>
      mkWorld (setError "" (ui w)) (converting w) (readers w) (copies w)
              (timers w)
  | TypeInstructions v =>
      mkWorld (setInstructions v (ui w)) (converting w) (readers w) (copies w)
              (timers w)
  | DragEnter =>
      mkWorld (handleDragEnter (ui w)) (converting w) (readers w) (copies w)
              (timers w)
  | DragLeave inside =>
      mkWorld (handleDragLeave inside (ui w)) (converting w) (readers w)
              (copies w) (timers w)
  | DragOver =>
      mkWorld (handleDragOver (ui w)) (converting w) (readers w) (copies w)
              (timers w)
  end.

Fixpoint play (process : option (gmap string string)) (events : list Event)
    (w : World) : World :=
  match events with
  | [] => w
  | e :: rest => play process rest (react process e w)
  end.

(** The component with nothing in flight. *)
Definition fresh (s : State) : World := mkWorld s None 0 [] 0.

(** * Examples and vocabulary *)

(** ** Concrete configurations, files and answers used in the examples *)

(** No variable set: demo mode, 25 MB ceiling. *)
Definition no_key : option (gmap string string) := Some ∅.

(** A credential is configured. *)
Definition with_key : option (gmap string string) :=
  Some {[ "REACT_APP_ANTHROPIC_API_KEY" := "sk-ant-test" ]}.

(** The size setting does not start with a digit. *)
Definition bad_size : option (gmap string string) :=
  Some {[ "REACT_APP_MAX_FILE_SIZE_MB" := "MB25" ]}.

Definition small_png : File := mkFile "image/png" 2048.
Definition text_file : File := mkFile "text/plain" 2048.
Definition ceiling_png : File := mkFile "image/png" 26214400.
Definition huge_png : File := mkFile "image/png" 9000000000000.

Definition data_url : string := "data:image/png;base64,iVBORw0KGgo=".

Definition offline : Attempt :=
  mkAttempt (Loaded data_url) (FetchFailed "Failed to fetch").

(** The state showing the demo result for [small_png]. *)
Definition showing_result : State :=
  run no_key [Upload (Some small_png) (Loaded data_url); Convert offline] initial.



(** A 429 with a plain detail. *)
Definition limited_plain : Response :=
  mkResponse false 429
    (Parsed (JObject [("error", JObject [("type", JString "rate_limit_error");
                                         ("message", JString "Too many requests")])])).

(** A 429 whose detail happens to contain the digits 401. *)
Definition limited_401 : Response :=
  mkResponse false 429
    (Parsed (JObject [("error", JObject [("type", JString "rate_limit_error");
                                         ("message", JString "Retry after 401 ms")])])).

(** A 401 whose body is not the usual error object. *)
Definition denied : Response :=
  mkResponse false 401 (Parsed (JObject [("error", JString "rate limit 429")])).

(** A successful body whose text is blank. *)
Definition blank_body : Json :=
  JObject [("content", JArray [JObject [("text", JString "   ")]])].

(** The string with the given bytes. *)
Definition bytes (l : list N) : string :=
  fold_right (fun n s => String (ascii_of_N n) s) EmptyString l.

(** A text padded with a no-break space, a space, a line separator and a
    line feed, and a successful body that carries it. *)
Definition padded_text : string :=
  bytes [194; 160; 32; 120; 94; 50; 226; 128; 168; 10]%N.

Definition padded_body : Json :=
  JObject [("content", JArray [JObject [("text", JString padded_text)]])].

(** A successful body whose text is a no-break space and a byte-order
    mark. *)
Definition nbsp_text : string := bytes [194; 160; 239; 187; 191]%N.

Definition nbsp_body : Json :=
  JObject [("content", JArray [JObject [("text", JString nbsp_text)]])].

(** ** Vocabulary of the statements *)

(** The string without its first [n] bytes, and its first [n] bytes. *)
Fixpoint skip (n : nat) (s : string) : string :=
  match n, s with
  | S k, String _ r => skip k r
  | _, _ => s
  end.

Fixpoint keep (n : nat) (s : string) : string :=
  match n, s with
  | S k, String a r => String a (keep k r)
  | _, _ => EmptyString
  end.

(** One white-space character of ECMAScript ([WhiteSpace] or
    [LineTerminator]), whole. *)
Definition white_char (w : string) : Prop :=
  w <> "" /\ JS.white_len w = String.length w.

(** White-space characters only. *)
Inductive blank : string -> Prop :=
| blank_nil : blank ""
| blank_cons (w s : string) : white_char w -> blank s -> blank (w +:+ s).

(** A string that ends with a white-space character. *)
Definition ends_white (s : string) : Prop :=
  exists p w, s = p +:+ w /\ white_char w.


(** [quiet c]: [c] leaves image and error alone, and changes the result
    only when it ends the function with [return]. *)
Definition quiet {A} (c : Cmd A) : Prop :=
  forall s,
    image (fst (c s)) = image s /\
    error (fst (c s)) = error s /\
    (snd (c s) <> Returned -> latexCode (fst (c s)) = latexCode s).

(** [guarded c]: [c] leaves image and error alone, and leaves the result
    alone whenever it throws. *)
Definition guarded {A} (c : Cmd A) : Prop :=
  forall s,
    image (fst (c s)) = image s /\
    error (fst (c s)) = error s /\
    (forall m, snd (c s) = Thrown m -> latexCode (fst (c s)) = latexCode s).

(** The event writes an error and leaves the result as it is: an upload
    or a drop that is refused, or a reader that fails. *)
Definition complains (process : option (gmap string string)) (e : Event)
    (w : World) : bool :=
  match e with
  | PickFile file => rejected (validateFile process file)
  | DropFiles (file :: _) => rejected (validateFile process (Some file))
  | ReaderSettles ReadFailed =>
      match readers w with O => false | S _ => true end
  | _ => false
  end.

(** A result is displayed, or a conversion is in flight. *)
Definition exposed (w : World) : bool :=
  JS.truthy (latexCode (ui w))
  || match converting w with Some _ => true | None => false end.

(** The event empties the error or the result: an accepted upload or
    drop, a click on the enabled convert button, a reset, a dismissal. *)
Definition clears (process : option (gmap string string)) (e : Event)
    (w : World) : bool :=
  match e with
  | PickFile file => negb (rejected (validateFile process file))
  | DropFiles (file :: _) => negb (rejected (validateFile process (Some file)))
  | ClickConvert => negb (convertDisabled (ui w))
  | ClickReset => true
  | ClickDismiss => true
  | _ => false
  end.

(** Whether, after the event, an error written over a displayed result or
    a pending conversion is still standing, given whether one was before. *)
Definition mark (process : option (gmap string string)) (e : Event)
    (w : World) (d : bool) : bool :=
  if clears process e w then false
  else d || (complains process e w && exposed w).

(** The same at the end of a session. *)
Fixpoint disturbed (process : option (gmap string string))
    (events : list Event) (w : World) (d : bool) : bool :=
  match events with
  | [] => d
  | e :: rest => disturbed process rest (react process e w) (mark process e w d)
  end.

(** What the sessions maintain. While a conversion is in flight the
    button is disabled and no result is shown; an error stands only if
    written over it. *)
Definition steady (w : World) (d : bool) : Prop :=
  match converting w with
  | Some _ =>
      isConverting (ui w) = true /\ latexCode (ui w) = "" /\
      (d = false -> error (ui w) = "")
  | None => d = false -> exclusive (ui w)
  end.

(** A session in which a drop is refused while a conversion is pending. *)
Definition refused_while_pending : list Event :=
  [PickFile (Some small_png); ReaderSettles (Loaded data_url); ClickConvert;
   DropFiles [text_file]; ConversionSettles offline].

(** A session with a refused upload that is followed by an accepted one. *)
Definition recovered_session : list Event :=
  [PickFile (Some text_file); PickFile (Some small_png); ClickConvert;
   TypeInstructions "inline"; ReaderSettles (Loaded data_url);
   ConversionSettles offline; ClickCopy; CopySettles true false;
   PickFile (Some text_file); ClickDismiss; TimerFires].

(** [v?.[key]]: the property, [undefined] when [v] is [null] or
    [undefined]. *)
Definition chain (key : string) (v : Value) : Value :=
  match get key v with
  | inl x => x
  | inr _ => Undefined
  end.

(** The text field of the first content block of a body, read off the
    body alone: [body?.content?.[0]?.text], [Undefined] when it is missing. *)
Definition first_block_text (body : Json) : Value :=
  chain "text" (chain "0" (chain "content" (Of body))).

(** A variable is unset: no [process], no such variable, or the empty
    string. *)
Definition unset (process : option (gmap string string)) (name : string) : Prop :=
  match process with
  | None => True
  | Some env => env !! name = None \/ env !! name = Some ""
  end.

(** No conversion is pending, and result and preview are only there
    together with an image. *)
Definition tidy (s : State) : Prop :=
  isConverting s = false /\
  (image s = None -> latexCode s = "") /\
  (image s = None -> imagePreview s = None).

(** A character at which [parseInt] stops reading decimal digits. *)
Definition stops (c : ascii) : bool :=
  match JS.digit_value c with
  | Some d => negb (d <? 10)
  | None => true
  end.

(** A value that a template literal can turn into a string. *)
Definition printable (v : Value) : bool :=
  match to_string v with
  | inl _ => true
  | inr _ => false
  end.

(** [silent c]: [c] passes nothing to [fetch]. *)
Definition silent {A} (c : Cmd A) : Prop :=
  forall s, fetched (fst (c s)) = fetched s.

(** No comma in a string. *)
Fixpoint comma_free (s : string) : bool :=
  match s with
  | EmptyString => true
  | String c r => negb (Ascii.eqb c ",") && comma_free r
  end.


(** The text thrown for a non-success response. *)
Definition failure_text (code : Z) (detail : string) : string :=
  "API request failed: " +:+ JS.decimal code +:+ " - " +:+ detail.

(** * Properties *)

(** ** JavaScript primitives on examples *)

Example parseInt_default : JS.parseInt "25" = JS.Num 25.
Proof. reflexivity. Qed.

Example parseInt_prefix : JS.parseInt "  +12px" = JS.Num 12.
Proof. reflexivity. Qed.

Example parseInt_hex : JS.parseInt "0x1F" = JS.Num 31.
Proof. reflexivity. Qed.

Example parseInt_nan : JS.parseInt "MB25" = JS.NaN.
Proof. reflexivity. Qed.

Example trim_both : JS.trim "  a b
" = "a b".
Proof. reflexivity. Qed.

Example includes_mid : JS.includes "429" "failed: 429 - x" = true.
Proof. reflexivity. Qed.

Example toFixed2_30mb : JS.toFixed2 31457281 1048576 = "30.00".
Proof. vm_compute. reflexivity. Qed.

Example split_data_url : JS.split_comma_1 "data:image/png;base64,iVBOR" = Some "iVBOR".
Proof. reflexivity. Qed.

(** ** Validation *)

Lemma supported_In (t : string) :
  supported t = true <-> In t SUPPORTED_FORMATS.
Proof.
  unfold supported. rewrite existsb_exists. split.
  - intros (x & Hin & Heq). apply String.eqb_eq in Heq. now subst.
  - intros Hin. exists t. split; [assumption | apply String.eqb_refl].
Qed.

Lemma supported_not_In (t : string) :
  supported t = false <-> ~ In t SUPPORTED_FORMATS.
Proof.
  rewrite <- supported_In. destruct (supported t); split; congruence.
Qed.

(** Every message of [validateFile] is a non-empty string, so the handler's
    [if (validationError)] is taken exactly when validation fails. *)
Lemma rejected_iff (process : option (gmap string string)) (file : option File) :
  rejected (validateFile process file) = true <-> validateFile process file <> None.
Proof.
  unfold validateFile.
  destruct file as [f|]; [| simpl; split; congruence].
  destruct (negb (supported (ftype f))); [simpl; split; congruence |].
  destruct (JS.gt _ _); [| simpl; split; congruence].
  unfold size_message. simpl. split; congruence.
Qed.

Lemma rejected_Some (process : option (gmap string string)) (file : option File)
    (msg : string) :
  validateFile process file = Some msg ->
  rejected (validateFile process file) = true /\ msg <> "".
Proof.
  intros H. split.
  - apply rejected_iff. congruence.
  - assert (Hr : rejected (validateFile process file) = true)
      by (apply rejected_iff; congruence).
    rewrite H in Hr. simpl in Hr. destruct msg; [discriminate | congruence].
Qed.

(** C5. A file whose reported MIME type is not in the allow-list is refused
    with the format message, whatever its size and whatever the configured
    ceiling. *)
Theorem unsupported_type_rejected (process : option (gmap string string)) (f : File) :
  ~ In (ftype f) SUPPORTED_FORMATS ->
  validateFile process (Some f) =
    Some "Please upload a valid image file (PNG, JPG, JPEG, GIF, WebP)".
Proof.
  intros Hout. apply supported_not_In in Hout.
  unfold validateFile. now rewrite Hout.
Qed.

(** C6. With a ceiling of [c] bytes configured, a file of an allowed type is
    accepted exactly when its size is at most [c]; in particular it is
    accepted at [c] bytes and refused at [c + 1]. *)
Theorem size_ceiling_exact (process : option (gmap string string)) (f : File) (c : Z) :
  In (ftype f) SUPPORTED_FORMATS ->
  MAX_FILE_SIZE process = JS.Num c ->
  (validateFile process (Some f) = None <-> Z.of_N (fsize f) <= c) /\
  (Z.of_N (fsize f) = c -> validateFile process (Some f) = None) /\
  (Z.of_N (fsize f) = c + 1 -> validateFile process (Some f) <> None).
Proof.
  intros Hin Hmax. apply supported_In in Hin.
  unfold validateFile. rewrite Hin, Hmax. simpl.
  destruct (Z.ltb_spec c (Z.of_N (fsize f))) as [Hlt | Hle].
  - repeat split; intros; first [lia | discriminate].
  - repeat split; intros; first [lia | reflexivity].
Qed.

(** The ceiling is a whole number of binary megabytes whenever it is a
    number, so the quotient in the size message is exact. *)
Lemma MAX_FILE_SIZE_whole_mb (process : option (gmap string string)) (c : Z) :
  MAX_FILE_SIZE process = JS.Num c -> exists mb, c = mb * (1024 * 1024).
Proof.
  unfold MAX_FILE_SIZE. destruct (JS.parseInt _) as [|mb]; simpl; [discriminate|].
  intros [= <-]. exists mb. lia.
Qed.

(** C10. When the size setting has no leading integer, [parseInt] gives
    [NaN], the comparison with the ceiling is never true, and every file of
    an allowed type is accepted whatever its size. *)
Theorem nan_ceiling_accepts_all (process : option (gmap string string)) (f : File) :
  JS.parseInt (getEnvVar process "REACT_APP_MAX_FILE_SIZE_MB" "25") = JS.NaN ->
  In (ftype f) SUPPORTED_FORMATS ->
  validateFile process (Some f) = None.
Proof.
  intros Hnan Hin. apply supported_In in Hin.
  unfold validateFile, MAX_FILE_SIZE. now rewrite Hin, Hnan.
Qed.

(** ** Upload *)

(** C1, amended. The handler validates first. An accepted file becomes the
    image and the previous result and error are cleared; a refused file
    only sets the error to the (non-empty) validation message and leaves
    image, preview and result as they were. *)
Theorem upload_clears_when_accepted (process : option (gmap string string))
    (file : option File) (s : State) :
  match validateFile process file with
  | None =>
      image (handleImageUpload process file s) = file /\
      latexCode (handleImageUpload process file s) = "" /\
      error (handleImageUpload process file s) = ""
  | Some msg =>
      error (handleImageUpload process file s) = msg /\ msg <> "" /\
      latexCode (handleImageUpload process file s) = latexCode s /\
      image (handleImageUpload process file s) = image s /\
      imagePreview (handleImageUpload process file s) = imagePreview s
  end.
Proof.
  unfold handleImageUpload.
  destruct (validateFile process file) as [msg|] eqn:Hv.
  - destruct (rejected_Some process file msg Hv) as [Hr Hne].
    rewrite Hv in Hr. rewrite Hr. simpl. repeat split; assumption.
  - simpl. repeat split.
Qed.

(** An accepted file is a file: the handler never stores an absent image. *)
Lemma accepted_is_file (process : option (gmap string string)) (file : option File) :
  rejected (validateFile process file) = false -> exists f, file = Some f.
Proof.
  destruct file as [f|]; [eauto | discriminate].
Qed.

(** ** Reset *)

(** C9. Whatever the state, reset leaves image, preview, result, error,
    instructions and the copy acknowledgment at their defaults and empties
    the file input, and a second reset changes nothing. *)
Theorem reset_defaults_idempotent (s : State) :
  image (resetTool s) = None /\
  imagePreview (resetTool s) = None /\
  latexCode (resetTool s) = "" /\
  error (resetTool s) = "" /\
  instructions (resetTool s) = "" /\
  copySuccess (resetTool s) = false /\
  fileInput (resetTool s) =
    match fileInput s with Some _ => Some "" | None => None end /\
  resetTool (resetTool s) = resetTool s.
Proof.
  unfold resetTool. simpl.
  destruct (fileInput s) eqn:Hf; simpl; rewrite ?Hf; repeat split.
Qed.

Lemma reset_clears_result (s : State) : latexCode (resetTool s) = "".
Proof. unfold resetTool. simpl. destruct (fileInput s); reflexivity. Qed.

(** Reset leaves the two flags it does not mention alone. *)
Lemma reset_keeps_flags (s : State) :
  isConverting (resetTool s) = isConverting s /\
  dragActive (resetTool s) = dragActive s.
Proof.
  unfold resetTool. simpl. destruct (fileInput s); split; reflexivity.
Qed.

(** ** Conversion *)

Lemma call_then {B} (f : State -> State) (k : Cmd B) (s : State) :
  (call f ;; k)%cmd s = k (f s).
Proof. reflexivity. Qed.

(** The cleanup of a [try] runs last, whatever the body and the handler do. *)
Lemma finally_last (body : Cmd unit) (handler : string -> Cmd unit)
    (f : State -> State) (s : State) :
  exists s', fst (try_catch_finally body handler (call f) s) = f s'.
Proof.
  unfold try_catch_finally.
  destruct (body s) as [s1 c1].
  destruct (match c1 with Thrown m => handler m s1 | _ => (s1, c1) end) as [s2 c2].
  exists s2. reflexivity.
Qed.

(** C8. A conversion that starts (an image is present) ends with
    [isConverting] false, whatever the configuration and whatever the
    browser answered. *)
Theorem converting_flag_cleared (process : option (gmap string string))
    (o : Attempt) (s : State) (img : File) :
  image s = Some img ->
  isConverting (convert process o s) = false.
Proof.
  intros Himg. unfold convert, convertToLatex, tryConvert. rewrite Himg.
  rewrite !call_then.
  match goal with
  | |- context [try_catch_finally ?b ?h (call ?f) ?x] =>
      destruct (finally_last b h f x) as [s' ->]
  end.
  reflexivity.
Qed.

(** C3. Without a credential, a conversion of a present image passes no
    request to [fetch], stores the fixed sample text as the result and
    leaves the error empty, whatever the browser would have answered. *)
Theorem demo_conversion (process : option (gmap string string))
    (o : Attempt) (s : State) (img : File) :
  API_KEY process = "" ->
  image s = Some img ->
  latexCode (convert process o s) = demoLatex /\
  error (convert process o s) = "" /\
  fetched (convert process o s) = fetched s /\
  isConverting (convert process o s) = false /\
  snd (convertToLatex process o s) = Returned.
Proof.
  intros Hkey Himg. unfold convert, convertToLatex, tryConvert. rewrite Himg, Hkey.
  rewrite !call_then. unfold try_catch_finally. simpl.
  repeat split.
Qed.

(** ** Which fields a statement of the conversion may touch *)

Lemma quiet_pure {A} (a : A) : quiet (pure a).
Proof. intros s. simpl. auto. Qed.

Lemma quiet_throw {A} (m : string) : quiet (@throw A m).
Proof. intros s. simpl. auto. Qed.

Lemma quiet_lift {A} (r : A + TypeError) : quiet (lift r).
Proof. destruct r; [apply quiet_pure | apply quiet_throw]. Qed.

Lemma quiet_bind {A B} (c : Cmd A) (k : A -> Cmd B) :
  quiet c -> (forall a, quiet (k a)) -> quiet (bind c k).
Proof.
  intros Hc Hk s. unfold bind.
  destruct (Hc s) as (Hi & He & Hl).
  destruct (c s) as [s1 [a | | m]]; simpl in *.
  - destruct (Hk a s1) as (Hi' & He' & Hl').
    rewrite Hi', He', <- Hi, <- He. repeat split.
    intros Hr. rewrite (Hl' Hr). apply Hl. discriminate.
  - repeat split; try assumption. intros Hr. now destruct Hr.
  - repeat split; try assumption. intros _. apply Hl. discriminate.
Qed.

Lemma quiet_fetch (req : Request) (o : FetchOutcome) : quiet (fetch req o).
Proof. intros s. simpl. auto. Qed.

Lemma quiet_read_base64 (r : ReadOutcome) : quiet (read_base64 r).
Proof. destruct r; [apply quiet_pure | apply quiet_throw]. Qed.

Lemma quiet_response_json (r : Response) : quiet (response_json r).
Proof.
  unfold response_json. destruct (json r); [apply quiet_pure | apply quiet_throw].
Qed.

Lemma quiet_response_json_or_empty (r : Response) : quiet (response_json_or_empty r).
Proof.
  unfold response_json_or_empty. destruct (json r); apply quiet_pure.
Qed.

Create HintDb quiet.
#[local] Hint Resolve quiet_pure quiet_throw quiet_lift quiet_fetch
  quiet_read_base64 quiet_response_json quiet_response_json_or_empty : quiet.

Ltac quiet_step :=
  first
    [ apply quiet_bind; [| intros ?]
    | solve [auto with quiet]
    | match goal with
      | |- quiet (if ?b then _ else _) => destruct b
      | |- quiet (match ?x with _ => _ end) => destruct x
      | |- quiet (when ?b _) => destruct b; unfold when
      end ].

Lemma quiet_error_detail (errorData : Value) : quiet (error_detail errorData).
Proof. unfold error_detail. repeat quiet_step. Qed.

Lemma quiet_malformed (data : Value) : quiet (malformed data).
Proof. unfold malformed. repeat quiet_step. Qed.

Lemma quiet_trimmed_text (data : Value) : quiet (trimmed_text data).
Proof. unfold trimmed_text. repeat quiet_step. Qed.

#[local] Hint Resolve quiet_error_detail quiet_malformed quiet_trimmed_text : quiet.

(** The demo branch stores a result and returns at once. *)
Lemma quiet_demo_branch (b : bool) :
  quiet (when b (call (setLatexCode demoLatex) ;; return_)).
Proof.
  destruct b; intros s; simpl; repeat split; congruence.
Qed.

Lemma guarded_store (g : string) : guarded (call (setLatexCode g)).
Proof. intros s. simpl. repeat split. discriminate. Qed.

Lemma guarded_bind {A B} (c : Cmd A) (k : A -> Cmd B) :
  quiet c -> (forall a, guarded (k a)) -> guarded (bind c k).
Proof.
  intros Hc Hk s. unfold bind.
  destruct (Hc s) as (Hi & He & Hl).
  destruct (c s) as [s1 [a | | m]]; simpl in *.
  - destruct (Hk a s1) as (Hi' & He' & Hl').
    rewrite Hi', He', <- Hi, <- He. repeat split.
    intros m Hm. rewrite (Hl' m Hm). apply Hl. discriminate.
  - repeat split; try assumption. discriminate.
  - repeat split; try assumption. intros _ _. apply Hl. discriminate.
Qed.

(** The [catch] block sets the error to some text and nothing else. *)
Lemma on_error_sets (m : string) :
  exists e, e <> "" /\ forall s, on_error m s = (setError e s, Normal tt).
Proof.
  unfold on_error.
  repeat match goal with
         | |- context [if ?b then _ else _] => destruct b
         end;
    eexists; (split; [| intros s; reflexivity]); simpl; discriminate.
Qed.

Ltac guarded_step :=
  first
    [ apply guarded_store
    | apply guarded_bind;
      [ first [ apply quiet_demo_branch | solve [repeat quiet_step] ] | intros ? ] ].

(** What a started conversion does to image, result and error: the image
    stays, and at the end the result or the error is empty. *)
Lemma convert_started (process : option (gmap string string)) (o : Attempt)
    (s : State) (img : File) :
  image s = Some img ->
  image (convert process o s) = Some img /\
  (latexCode (convert process o s) = "" \/ error (convert process o s) = "").
Proof.
  intros Himg. unfold convert, convertToLatex, tryConvert. rewrite Himg. rewrite !call_then.
  match goal with
  | |- context [try_catch_finally ?b _ _ ?x] =>
      assert (Hg : guarded b) by (repeat guarded_step);
      specialize (Hg x); revert Hg; generalize b; intros body Hg
  end.
  unfold try_catch_finally.
  destruct (body _) as [s1 c1]. simpl in Hg. destruct Hg as (Hi & He & Hl).
  destruct c1 as [[] | | m].
  - simpl. rewrite Hi, He. auto.
  - simpl. rewrite Hi, He. auto.
  - destruct (on_error_sets m) as (e & _ & ->). simpl.
    rewrite Hi, (Hl m eq_refl). auto.
Qed.

(** A conversion asked for without an image only reports that. *)
Lemma convert_no_image (process : option (gmap string string)) (o : Attempt)
    (s : State) :
  image s = None ->
  convert process o s = setError "Please upload an image first" s.
Proof.
  intros Himg. unfold convert, convertToLatex, tryConvert. now rewrite Himg.
Qed.

(** ** Result and error over sequences of operations *)

(** What the [try] statement of a conversion does when it runs against any
    state: it leaves the error or the result as it was. *)
Lemma tryConvert_settles (process : option (gmap string string)) (img : File)
    (instr : string) (o : Attempt) (st : State) :
  error (fst (tryConvert process img instr o st)) = error st \/
  latexCode (fst (tryConvert process img instr o st)) = latexCode st.
Proof.
  unfold tryConvert.
  match goal with
  | |- context [try_catch_finally ?b _ _ ?x] =>
      assert (Hg : guarded b) by (repeat guarded_step);
      specialize (Hg x); revert Hg; generalize b; intros body Hg
  end.
  unfold try_catch_finally.
  destruct (body _) as [s1 c1]. simpl in Hg. destruct Hg as (Hi & He & Hl).
  destruct c1 as [[] | | m].
  - left. simpl. exact He.
  - left. simpl. exact He.
  - right. destruct (on_error_sets m) as (e & _ & ->). simpl.
    exact (Hl m eq_refl).
Qed.

(** Operations that do not overlap are sessions: a conversion is a click
    and its continuation, an upload is the handler and its reader. *)
Lemma convert_is_session (process : option (gmap string string)) (o : Attempt)
    (s : State) :
  convertDisabled s = false ->
  ui (play process [ClickConvert; ConversionSettles o] (fresh s))
    = convert process o s.
Proof.
  intros Hd. simpl. rewrite Hd.
  unfold convert, convertToLatex.
  destruct (image s) as [img |] eqn:Himg.
  - simpl. rewrite !call_then. reflexivity.
  - unfold convertDisabled in Hd. rewrite Himg in Hd. discriminate.
Qed.

Lemma upload_is_session (process : option (gmap string string))
    (file : option File) (r : ReadOutcome) (s : State) :
  ui (play process [PickFile file; ReaderSettles r] (fresh s))
    = upload process file r s.
Proof.
  unfold upload. simpl.
  destruct (rejected (validateFile process file)); reflexivity.
Qed.

Lemma steady_fresh : steady (fresh initial) false.
Proof. intros _. left. reflexivity. Qed.

Lemma refused_sets_error (process : option (gmap string string))
    (file : option File) :
  rejected (validateFile process file) = true ->
  default "" (validateFile process file) <> "".
Proof.
  unfold rejected. destruct (validateFile process file) as [m |]; [| discriminate].
  simpl. destruct m; [discriminate | intros _; discriminate].
Qed.

(** An upload handler keeps [steady]. *)
Lemma upload_steady (process : option (gmap string string))
    (file : option File) (w : World) (d : bool) (n : nat) (pre : State -> State) :
  (forall s, latexCode (pre s) = latexCode s /\ error (pre s) = error s /\
             isConverting (pre s) = isConverting s) ->
  steady w d ->
  steady (mkWorld (handleImageUpload process file (pre (ui w))) (converting w) n
                  (copies w) (timers w))
         (if negb (rejected (validateFile process file)) then false
          else d || (rejected (validateFile process file) && exposed w)).
Proof.
  intros Hpre Hs. destruct (Hpre (ui w)) as (Hl & He & Hc).
  unfold steady, exposed, exclusive, handleImageUpload in *. simpl.
  destruct (rejected (validateFile process file)); simpl.
  - destruct (converting w) as [c |].
    + destruct Hs as (Hi & Hx & _). rewrite !orb_true_r.
      rewrite Hl, Hc. repeat split; try assumption. discriminate.
    + rewrite orb_false_r. intros Hd. apply orb_false_elim in Hd as [-> Ht].
      left. rewrite Hl. unfold JS.truthy in Ht.
      destruct (latexCode (ui w)); [reflexivity | discriminate].
  - destruct (converting w) as [c |].
    + destruct Hs as (Hi & _). rewrite Hc. auto.
    + intros _. left. reflexivity.
Qed.

Lemma react_steady (process : option (gmap string string)) (e : Event)
    (w : World) (d : bool) :
  steady w d -> steady (react process e w) (mark process e w d).
Proof.
  intros Hs. unfold mark, exclusive in *.
  destruct e as [file | files | r | | o | | p f | | | | v | | inside |]; simpl.
  - (* a picked file *)
    apply (upload_steady process file w d _ (fun s => s)); [auto | exact Hs].
  - (* a drop *)
    destruct files as [| file rest]; simpl.
    + rewrite orb_false_r. unfold steady, exclusive in *. simpl.
      destruct (converting w); exact Hs.
    + apply (upload_steady process (Some file) w d _ (setDragActive false));
        [intros s; simpl; auto | exact Hs].
  - (* a reader *)
    destruct (readers w) as [| n].
    + destruct r; rewrite ?orb_false_r; exact Hs.
    + destruct r as [u |]; simpl.
      * rewrite orb_false_r. unfold steady, exclusive in *. simpl.
        destruct (converting w); exact Hs.
      * unfold steady, exposed, exclusive in *. simpl.
        destruct (converting w) as [c |].
        -- rewrite !orb_true_r. destruct Hs as (Hi & Hx & _).
           repeat split; try assumption. discriminate.
        -- rewrite orb_false_r. intros Hd. apply orb_false_elim in Hd as [-> Ht].
           left. simpl. unfold JS.truthy in Ht.
           destruct (latexCode (ui w)); [reflexivity | discriminate].
  - (* the convert button *)
    destruct (convertDisabled (ui w)) eqn:Hd; simpl.
    + rewrite orb_false_r. exact Hs.
    + unfold convertDisabled in Hd.
      destruct (image (ui w)) as [img |]; [| discriminate].
      unfold steady, exclusive. simpl. auto.
  - (* the end of a conversion *)
    rewrite orb_false_r.
    destruct (converting w) as [[img instr] |] eqn:Hc; [| exact Hs].
    unfold steady, exclusive in *. rewrite Hc in Hs. simpl.
    destruct Hs as (_ & Hx & He). intros Hd.
    destruct (tryConvert_settles process img instr o (ui w)) as [H | H];
      rewrite H; [right; auto | left; exact Hx].
  - (* the copy button *)
    rewrite orb_false_r.
    destruct (JS.truthy (latexCode (ui w))); [| exact Hs].
    unfold steady, exclusive in *. simpl. destruct (converting w); exact Hs.
  - (* the end of a copy *)
    rewrite orb_false_r.
    destruct (copies w) as [| text rest]; [exact Hs |].
    unfold steady, exclusive in *. simpl.
    destruct (converting w); destruct (p || f); exact Hs.
  - (* a timer *)
    rewrite orb_false_r.
    destruct (timers w) as [| n]; [exact Hs |].
    unfold steady, exclusive in *. simpl. destruct (converting w); exact Hs.
  - (* reset *)
    unfold steady, exclusive in *. simpl.
    assert (Hr : latexCode (resetTool (ui w)) = "" /\
                 error (resetTool (ui w)) = "" /\
                 isConverting (resetTool (ui w)) = isConverting (ui w))
      by (unfold resetTool; simpl;
          destruct (fileInput (ui w)); simpl; auto).
    destruct Hr as (Hl & He & Hi).
    destruct (converting w).
    + rewrite Hl, He, Hi. destruct Hs as (H & _). auto.
    + intros _. left. exact Hl.
  - (* dismissal *)
    unfold steady, exclusive in *. simpl. destruct (converting w).
    + destruct Hs as (Hi & Hx & _). auto.
    + intros _. right. reflexivity.
  - rewrite orb_false_r. unfold steady, exclusive in *. simpl.
    destruct (converting w); exact Hs.
  - rewrite orb_false_r. unfold steady, exclusive in *. simpl.
    destruct (converting w); exact Hs.
  - rewrite orb_false_r. unfold steady, exclusive, handleDragLeave in *. simpl.
    destruct (converting w); destruct (negb inside); exact Hs.
  - rewrite orb_false_r. unfold steady, exclusive in *. simpl.
    destruct (converting w); exact Hs.
Qed.

Lemma play_steady (process : option (gmap string string)) (events : list Event) :
  forall w d, steady w d ->
              steady (play process events w) (disturbed process events w d).
Proof.
  induction events as [| e rest IH]; intros w d Hs; [exact Hs |].
  simpl. apply IH. apply react_steady. exact Hs.
Qed.

Lemma steady_exclusive (w : World) : steady w false -> exclusive (ui w).
Proof.
  unfold steady. destruct (converting w).
  - intros (_ & Hx & _). left. exact Hx.
  - intros H. exact (H eq_refl).
Qed.

(** C2, amended. In every session of the component, however its handlers
    and their callbacks overlap, the result and the error are not both set
    as long as no error was written over a displayed result or a pending
    conversion (by a refused upload or drop, or by a reader that failed)
    since the last accepted upload, started conversion, reset or dismissal.
    An upload that is refused while a result is displayed keeps the result
    and sets the error: both are then set. *)
Theorem exclusive_unless_disturbed (process : option (gmap string string))
    (events : list Event) :
  (disturbed process events (fresh initial) false = false ->
   exclusive (ui (play process events (fresh initial)))) /\
  (forall (file : option File) (s : State),
      rejected (validateFile process file) = true ->
      latexCode s <> "" ->
      latexCode (handleImageUpload process file s) = latexCode s /\
      error (handleImageUpload process file s) <> "" /\
      ~ exclusive (handleImageUpload process file s)).
Proof.
  split.
  - intros Hd. apply steady_exclusive. rewrite <- Hd.
    apply play_steady. exact steady_fresh.
  - intros file s Hr Hl. unfold handleImageUpload. rewrite Hr. simpl.
    pose proof (refused_sets_error process file Hr) as He.
    repeat split; [exact He |].
    intros [H | H]; simpl in H; contradiction.
Qed.

(** ** The text of the first content block *)

Lemma chain_defined (key : string) (v : Value) (j : Json) :
  chain key v = Of j -> get key v = inl (Of j) /\ truthy v = true.
Proof.
  unfold chain. destruct v as [| [| b | nz sh | str | items | fields]]; simpl;
    try discriminate.
  - destruct (String.eqb key "0"); [| discriminate].
    destruct str; [discriminate |]. intros [= <-]. auto.
  - destruct (String.eqb key "0"); [| discriminate].
    destruct items; [discriminate |]. intros [= <-]. auto.
  - intros ->. auto.
Qed.

Lemma text_present (body : Json) (t : string) :
  first_block_text body = Of (JString t) ->
  (forall s, malformed (Of body) s = (s, Normal (negb (JS.truthy t)))) /\
  (forall s, trimmed_text (Of body) s = (s, Normal (JS.trim t))).
Proof.
  unfold first_block_text. intros Ht.
  apply chain_defined in Ht as [Htext Hfirst].
  destruct (chain "0" (chain "content" (Of body))) as [| first] eqn:H0;
    [discriminate |].
  apply chain_defined in H0 as [H0 Hcontent].
  destruct (chain "content" (Of body)) as [| content] eqn:Hc; [discriminate |].
  apply chain_defined in Hc as [Hc _].
  split; intros s.
  - unfold malformed. rewrite Hc. cbn [lift bind pure]. rewrite Hcontent.
    cbn [negb]. rewrite H0. cbn [lift bind pure]. rewrite Hfirst.
    cbn [negb]. rewrite Htext. reflexivity.
  - unfold trimmed_text. rewrite Hc. cbn [lift bind pure]. rewrite H0.
    cbn [lift bind pure]. rewrite Htext. reflexivity.
Qed.





(** ** Non-success responses *)

(** A non-success response ends in the [catch] block with [failure_text] of
    its status and detail: the displayed error is what the substring tests
    of [on_error] make of that whole text. *)
Lemma failed_response_error (process : option (gmap string string)) (s : State)
    (img : File) (dataUrl : string) (r : Response) (detail : string) :
  image s = Some img ->
  JS.truthy (API_KEY process) = true ->
  ok r = false ->
  (forall s0, (errorData <- response_json_or_empty r ;; error_detail errorData)%cmd s0
              = (s0, Normal detail)) ->
  convert process (mkAttempt (Loaded dataUrl) (Responded r)) s =
    setIsConverting false
      (fst (on_error (failure_text (status r) detail)
              (doFetch (request (API_KEY process) img (JS.split_comma_1 dataUrl)
                                (instructions s))
                 (setLatexCode "" (setError "" (setIsConverting true s)))))).
Proof.
  intros Himg Hkey Hok Hdetail.
  unfold convert, convertToLatex, tryConvert. rewrite Himg. rewrite !call_then.
  unfold try_catch_finally. rewrite Hkey.
  cbn [negb when read net read_base64].
  do 3 (unfold bind at 1; cbn [pure fetch]).
  rewrite Hok. cbn [negb when].
  unfold bind at 1. unfold bind at 1.
  unfold bind at 1 in Hdetail.
  specialize (Hdetail (doFetch (request (API_KEY process) img
                                  (JS.split_comma_1 dataUrl) (instructions s))
                         (setLatexCode "" (setError "" (setIsConverting true s))))).
  destruct (response_json_or_empty r _) as [s1 [errorData | | m]];
    [| discriminate | discriminate].
  unfold bind at 1. rewrite Hdetail. cbn [throw].
  destruct (on_error_sets (failure_text (status r) detail)) as (e & _ & He).
  unfold failure_text in He. rewrite !He. reflexivity.
Qed.

(** A 401 is always reported as an invalid key: its status is the first
    thing the tests meet. *)
Lemma status_401_message (detail : string) (s : State) :
  on_error (failure_text 401 detail) s =
    (setError "Invalid API key. Please check your Anthropic API key in the .env.local file." s,
     Normal tt).
Proof. reflexivity. Qed.


(** * Further properties *)

(** ** Configuration *)

Lemma parse_digits_pos (d : Decimal.uint) :
  forall acc : positive,
    JS.parse_digits 10 (NilEmpty.string_of_uint d) (Some (Z.pos acc)) =
      Some (Z.pos (Pos.of_uint_acc d acc)).
Proof.
  induction d; intros acc; cbn [NilEmpty.string_of_uint Pos.of_uint_acc];
    [reflexivity | ..];
    (etransitivity; [| apply IHd]);
    cbn [JS.parse_digits JS.digit_value];
    cbv beta iota delta [JS.digit_value]; simpl; f_equal; f_equal; lia.
Qed.

Lemma parse_digits_zero (d : Decimal.uint) :
  JS.parse_digits 10 (NilEmpty.string_of_uint d) (Some 0) =
    Some (Z.of_N (Pos.of_uint d)).
Proof.
  induction d; cbn [NilEmpty.string_of_uint Pos.of_uint];
    [reflexivity | exact IHd | ..];
    (etransitivity; [| apply parse_digits_pos]); reflexivity.
Qed.

Lemma parse_digits_numeral (d : Decimal.uint) :
  JS.parse_digits 10 (NilZero.string_of_uint d) None =
    Some (Z.of_N (Pos.of_uint d)).
Proof.
  destruct d; try reflexivity;
    (etransitivity; [| apply parse_digits_zero]); reflexivity.
Qed.

(** A numeral is read in radix 10, with the sign in front of it. *)
Lemma parseInt_numeral (d : Decimal.uint) :
  JS.parseInt (NilZero.string_of_uint d) = JS.Num (Z.of_N (Pos.of_uint d)) /\
  JS.parseInt (String "-" (NilZero.string_of_uint d)) =
    JS.Num (- Z.of_N (Pos.of_uint d)).
Proof.
  assert (H : JS.parseInt (NilZero.string_of_uint d) =
              match JS.parse_digits 10 (NilZero.string_of_uint d) None with
              | None => JS.NaN
              | Some n => JS.Num (1 * n)
              end /\
              JS.parseInt (String "-" (NilZero.string_of_uint d)) =
              match JS.parse_digits 10 (NilZero.string_of_uint d) None with
              | None => JS.NaN
              | Some n => JS.Num (-1 * n)
              end).
  { destruct d as [| l | l | l | l | l | l | l | l | l | l];
      try (split; reflexivity); destruct l; split; reflexivity. }
  destruct H as [-> ->]. rewrite parse_digits_numeral.
  split; f_equal; lia.
Qed.

(** [parseInt] reads back the decimal text of every integer. *)
Lemma parseInt_decimal (z : Z) : JS.parseInt (JS.decimal z) = JS.Num z.
Proof.
  unfold JS.decimal.
  destruct z as [| p | p]; [reflexivity | |];
    cbn [Z.to_int NilZero.string_of_int];
    destruct (parseInt_numeral (Pos.to_uint p)) as [Hpos Hneg].
  - rewrite Hpos, DecimalPos.Unsigned.of_to. reflexivity.
  - rewrite Hneg, DecimalPos.Unsigned.of_to. reflexivity.
Qed.

Lemma decimal_truthy (z : Z) : JS.truthy (JS.decimal z) = true.
Proof.
  unfold JS.decimal.
  destruct z as [| p | p]; [reflexivity | |];
    cbn [Z.to_int NilZero.string_of_int]; [| reflexivity];
    destruct (Pos.to_uint p); reflexivity.
Qed.

(** X1. A size setting written as the decimal text of an integer [n] of
    magnitude up to 2^53, the range in which [parseInt] and the products
    with 1024 are exact, gives a ceiling of [n] binary megabytes. *)
Theorem size_setting_decimal (env : gmap string string) (n : Z) :
  Z.abs n <= 2 ^ 53 ->
  env !! "REACT_APP_MAX_FILE_SIZE_MB" = Some (JS.decimal n) ->
  MAX_FILE_SIZE (Some env) = JS.Num (n * 1024 * 1024).
Proof.
  intros _ Hset. unfold MAX_FILE_SIZE, getEnvVar. rewrite Hset.
  unfold JS.or_else. rewrite decimal_truthy, parseInt_decimal. reflexivity.
Qed.

(** X2. A variable counts as unset when [process] is missing, when the
    variable is missing, and when it is the empty string: the ceiling is
    then 25 MB, and the component is in demo mode exactly then. *)
Theorem defaults_when_unset (process : option (gmap string string)) :
  (unset process "REACT_APP_MAX_FILE_SIZE_MB" ->
   MAX_FILE_SIZE process = JS.Num 26214400) /\
  (unset process "REACT_APP_ANTHROPIC_API_KEY" <-> API_KEY process = "").
Proof.
  unfold unset, MAX_FILE_SIZE, API_KEY, getEnvVar.
  destruct process as [env |]; [| repeat split; auto].
  split.
  - intros [-> | ->]; reflexivity.
  - destruct (env !! "REACT_APP_ANTHROPIC_API_KEY") as [v |]; [| tauto].
    unfold JS.or_else.
    destruct v; simpl;
      (split; [intros [H | H]; first [reflexivity | congruence]
              | intros H; first [discriminate | auto]]).
Qed.

(** X3. Under a negative ceiling no file at all is accepted. *)
Theorem negative_ceiling_rejects_all (process : option (gmap string string))
    (c : Z) (f : File) :
  MAX_FILE_SIZE process = JS.Num c -> c < 0 ->
  validateFile process (Some f) <> None.
Proof.
  intros Hmax Hneg. unfold validateFile.
  destruct (negb (supported (ftype f))); [discriminate |].
  rewrite Hmax. simpl.
  destruct (Z.ltb_spec c (Z.of_N (fsize f))); [discriminate | lia].
Qed.

(** ** Upload, drop and reset together *)

(** X4. An accepted upload makes the file the image and clears the result.
    When its reader loads, the preview is the new data URL and no error is
    set; when the reader fails, the read error is set and the preview of
    the previous image stays in place. *)
Theorem accepted_upload_outcome (process : option (gmap string string))
    (f : File) (r : ReadOutcome) (s : State) :
  validateFile process (Some f) = None ->
  image (upload process (Some f) r s) = Some f /\
  latexCode (upload process (Some f) r s) = "" /\
  match r with
  | Loaded u =>
      imagePreview (upload process (Some f) r s) = Some u /\
      error (upload process (Some f) r s) = ""
  | ReadFailed =>
      imagePreview (upload process (Some f) r s) = imagePreview s /\
      error (upload process (Some f) r s) = "Failed to read the image file"
  end.
Proof.
  intros Hv. unfold upload, handleImageUpload. rewrite Hv. simpl.
  destruct r; repeat split.
Qed.

(** X5. Handing the same file to the upload handler twice in a row is the
    same as handing it once, and a reset after an upload is the same as a
    reset alone. *)
Theorem upload_twice_and_reset (process : option (gmap string string))
    (file : option File) (r : ReadOutcome) (s : State) :
  handleImageUpload process file (handleImageUpload process file s)
    = handleImageUpload process file s /\
  resetTool (upload process file r s) = resetTool s.
Proof.
  unfold upload, handleImageUpload.
  destruct (rejected (validateFile process file)).
  - split; [reflexivity |]. unfold resetTool. simpl.
    destruct (fileInput s); reflexivity.
  - split; [reflexivity |]. unfold resetTool.
    destruct r; simpl; destruct (fileInput s); reflexivity.
Qed.

(** X6. A drop uploads its first file and no other: the state after the
    drop is that of the upload handler called with the first file once the
    highlight is off, so a first file that passes validation becomes the
    image, and a first file that is refused leaves the image as it was
    and shows its message, whatever files follow it. An empty drop changes
    nothing but the highlight, and after any drop the highlight is off. *)
Theorem drop_uses_first_file (process : option (gmap string string))
    (files : list File) (s : State) :
  (forall f, head files = Some f ->
     handleDrop process files s
       = handleImageUpload process (Some f) (setDragActive false s) /\
     (validateFile process (Some f) = None ->
      image (handleDrop process files s) = Some f) /\
     (rejected (validateFile process (Some f)) = true ->
      image (handleDrop process files s) = image s /\
      error (handleDrop process files s)
        = default "" (validateFile process (Some f)))) /\
  handleDrop process files s = handleDrop process (firstn 1 files) s /\
  handleDrop process [] s = setDragActive false s /\
  dragActive (handleDrop process files s) = false.
Proof.
  unfold handleDrop.
  destruct files as [| f rest].
  - split; [intros f Hf; discriminate | simpl; repeat split].
  - split.
    + intros f' Hf. injection Hf as <-. split; [reflexivity |].
      unfold handleImageUpload. split.
      * intros Hv. rewrite Hv. reflexivity.
      * intros Hr. rewrite Hr. split; reflexivity.
    + cbn [firstn]. unfold handleImageUpload.
      destruct (rejected (validateFile process (Some f))); repeat split.
Qed.

(** ** Copy *)

(** X7. With a result on screen, copy always shows the acknowledgment, even
    when both the clipboard call and the fallback fail; the clipboard holds
    the result as soon as one of the two works, and is left alone when
    neither does. Without a result copy does nothing. The timer that
    follows takes the acknowledgment away again. *)
Theorem copy_acknowledges (primary fallback : bool) (s : State) :
  (latexCode s = "" -> copyToClipboard primary fallback s = s) /\
  (latexCode s <> "" ->
   copySuccess (copyToClipboard primary fallback s) = true /\
   clipboard (copyToClipboard primary fallback s) =
     (if primary || fallback then Some (latexCode s) else clipboard s) /\
   latexCode (copyToClipboard primary fallback s) = latexCode s /\
   error (copyToClipboard primary fallback s) = error s /\
   copySuccess (copy_timeout (copyToClipboard primary fallback s)) = false).
Proof.
  unfold copyToClipboard, copy_timeout.
  destruct (latexCode s) as [| c t] eqn:Hl; simpl.
  - split; [reflexivity | congruence].
  - split; [discriminate | intros _].
    destruct primary, fallback; simpl; rewrite ?Hl; repeat split.
Qed.

(** ** Requests of a live conversion *)

Lemma silent_pure {A} (a : A) : silent (pure a).
Proof. intros s. reflexivity. Qed.

Lemma silent_throw {A} (m : string) : silent (@throw A m).
Proof. intros s. reflexivity. Qed.

Lemma silent_lift {A} (r : A + TypeError) : silent (lift r).
Proof. destruct r as [a | m]; intros st; reflexivity. Qed.

Lemma silent_store (g : string) : silent (call (setLatexCode g)).
Proof. intros s. reflexivity. Qed.

Lemma silent_flag (b : bool) : silent (call (setIsConverting b)).
Proof. intros s. reflexivity. Qed.

Lemma silent_bind {A B} (c : Cmd A) (k : A -> Cmd B) :
  silent c -> (forall a, silent (k a)) -> silent (bind c k).
Proof.
  intros Hc Hk s. unfold bind. specialize (Hc s).
  destruct (c s) as [s1 [a | | m]]; simpl in *; [| assumption | assumption].
  rewrite (Hk a s1). exact Hc.
Qed.

Lemma silent_on_error (m : string) : silent (on_error m).
Proof.
  intros s. destruct (on_error_sets m) as (e & _ & ->). reflexivity.
Qed.

Create HintDb silent.
#[local] Hint Resolve silent_pure silent_throw silent_lift silent_store
  silent_flag silent_on_error : silent.

Ltac silent_step :=
  first
    [ apply silent_bind; [| intros ?]
    | solve [auto with silent]
    | match goal with
      | |- silent (if ?b then _ else _) => destruct b
      | |- silent (match ?x with _ => _ end) => destruct x
      | |- silent (when ?b _) => destruct b; unfold when
      | |- silent (response_json _) => unfold response_json
      | |- silent (response_json_or_empty _) => unfold response_json_or_empty
      | |- silent (error_detail _) => unfold error_detail
      | |- silent (malformed _) => unfold malformed
      | |- silent (trimmed_text _) => unfold trimmed_text
      end ].

(** A [try] whose handler and cleanup are silent sends what its body
    sends. *)
Lemma try_fetched (body : Cmd unit) (handler : string -> Cmd unit)
    (cleanup : Cmd unit) (s : State) :
  (forall m, silent (handler m)) -> silent cleanup ->
  fetched (fst (try_catch_finally body handler cleanup s)) = fetched (fst (body s)).
Proof.
  intros Hh Hc. unfold try_catch_finally.
  destruct (body s) as [s1 c1]. simpl.
  destruct c1 as [a | | m].
  - specialize (Hc s1). destruct (cleanup s1) as [s3 c3]. exact Hc.
  - specialize (Hc s1). destruct (cleanup s1) as [s3 c3]. exact Hc.
  - specialize (Hh m s1). destruct (handler m s1) as [s2 c2].
    specialize (Hc s2). destruct (cleanup s2) as [s3 c3].
    simpl in *. congruence.
Qed.

(** X8. A conversion with a credential whose image could be read passes
    exactly one request to [fetch], whatever the answer: a failure is not
    retried. The request carries the key, the image's type and the base64
    part of the data URL. *)
Theorem one_request_per_conversion (process : option (gmap string string))
    (o : Attempt) (s : State) (img : File) (dataUrl : string) :
  image s = Some img ->
  JS.truthy (API_KEY process) = true ->
  read o = Loaded dataUrl ->
  fetched (convert process o s) =
    (fetched s ++ [request (API_KEY process) img (JS.split_comma_1 dataUrl)
                           (instructions s)])%list.
Proof.
  intros Himg Hkey Hread. unfold convert, convertToLatex, tryConvert.
  rewrite Himg, !call_then.
  rewrite try_fetched by auto with silent.
  rewrite Hkey, Hread. cbn [negb when read_base64].
  do 2 (unfold bind at 1; cbn [pure]). unfold bind at 1. cbn [fetch].
  destruct (net o) as [r | m]; [| reflexivity].
  match goal with
  | |- fetched (fst (?c ?st)) = _ =>
      assert (Hs : silent c) by (repeat silent_step); rewrite (Hs st)
  end.
  reflexivity.
Qed.

(** X9. When the image cannot be read for the request, nothing is sent:
    the generic failure with the reader's text is reported, no result is
    stored and the flag is cleared. *)
Theorem unreadable_image_not_sent (process : option (gmap string string))
    (o : Attempt) (s : State) (img : File) :
  image s = Some img ->
  JS.truthy (API_KEY process) = true ->
  read o = ReadFailed ->
  fetched (convert process o s) = fetched s /\
  error (convert process o s) = "Failed to convert image to LaTeX: Failed to read file" /\
  latexCode (convert process o s) = "" /\
  isConverting (convert process o s) = false.
Proof.
  intros Himg Hkey Hread. unfold convert, convertToLatex, tryConvert.
  rewrite Himg, !call_then. unfold try_catch_finally.
  rewrite Hkey, Hread. cbn [negb when read_base64].
  unfold bind at 1. cbn [pure]. unfold bind at 1. cbn [throw].
  cbn. repeat split.
Qed.

(** ** Failures of a live conversion *)

(** The state in which the answer to the request arrives. *)
Lemma transport_failure_state (process : option (gmap string string))
    (s : State) (img : File) (dataUrl m : string) :
  image s = Some img ->
  JS.truthy (API_KEY process) = true ->
  convert process (mkAttempt (Loaded dataUrl) (FetchFailed m)) s =
    setIsConverting false
      (fst (on_error m
              (doFetch (request (API_KEY process) img (JS.split_comma_1 dataUrl)
                                (instructions s))
                 (setLatexCode "" (setError "" (setIsConverting true s)))))).
Proof.
  intros Himg Hkey. unfold convert, convertToLatex, tryConvert.
  rewrite Himg, !call_then. unfold try_catch_finally.
  rewrite Hkey. cbn [negb when read net read_base64].
  do 2 (unfold bind at 1; cbn [pure]). unfold bind at 1. cbn [fetch].
  destruct (on_error_sets m) as (e & _ & He). rewrite !He. reflexivity.
Qed.

(** X10. A transport failure whose text mentions none of 401, 403 and 429 is
    reported as a network error when the text contains "Failed to fetch",
    and otherwise as the generic failure followed by the text; no result is
    stored. *)
Theorem transport_failure_message (process : option (gmap string string))
    (s : State) (img : File) (dataUrl m : string) :
  image s = Some img ->
  JS.truthy (API_KEY process) = true ->
  JS.includes "401" m = false ->
  JS.includes "403" m = false ->
  JS.includes "429" m = false ->
  error (convert process (mkAttempt (Loaded dataUrl) (FetchFailed m)) s) =
    (if JS.includes "Failed to fetch" m
     then "Network error. Please check your internet connection and try again."
     else "Failed to convert image to LaTeX: " +:+ m) /\
  latexCode (convert process (mkAttempt (Loaded dataUrl) (FetchFailed m)) s) = "".
Proof.
  intros Himg Hkey H401 H403 H429.
  rewrite (transport_failure_state process s img dataUrl m Himg Hkey).
  unfold on_error. rewrite H401, H403, H429.
  destruct (JS.includes "Failed to fetch" m); split; reflexivity.
Qed.

(** The detail of a body that is not [null] is made from its
    [error?.message]. *)
Lemma error_detail_value (errorData : Json) :
  errorData <> JNull ->
  forall s,
    error_detail (Of errorData) s =
      (if truthy (chain "message" (chain "error" (Of errorData)))
       then lift (to_string (chain "message" (chain "error" (Of errorData))))
       else pure "Unknown error") s.
Proof.
  intros Hnull st. unfold error_detail, chain.
  destruct errorData as [| b | nz sh | str | items | fields]; try congruence;
    cbn [get lift bind pure].
  1-2: reflexivity.
  - destruct (String.eqb "error" "0"); [destruct str |];
      cbn [get lift bind pure]; reflexivity.
  - destruct (String.eqb "error" "0"); [destruct items as [| [] ?] |];
      cbn [get lift bind pure]; reflexivity.
  - destruct (field "error" fields) as [| [| b | nz sh | str | items | fs]];
      cbn [get lift bind pure]; reflexivity.
Qed.

(** X11. A 401 response is always reported as an invalid key, whatever its
    body says, provided the body is not the JSON [null] and its
    [error.message] can be made a string (anything but an object, or an
    array holding an object, with a key [toString]). *)
Theorem status_401_invalid_key (process : option (gmap string string))
    (s : State) (img : File) (dataUrl : string) (r : Response) :
  image s = Some img ->
  JS.truthy (API_KEY process) = true ->
  ok r = false ->
  status r = 401 ->
  (forall body, json r = Parsed body ->
     body <> JNull /\
     printable (chain "message" (chain "error" (Of body))) = true) ->
  error (convert process (mkAttempt (Loaded dataUrl) (Responded r)) s) =
    "Invalid API key. Please check your Anthropic API key in the .env.local file.".
Proof.
  intros Himg Hkey Hok Hst Hbody.
  assert (Hd : exists d, forall s0,
             (errorData <- response_json_or_empty r ;; error_detail errorData)%cmd s0
             = (s0, Normal d)).
  { unfold response_json_or_empty.
    destruct (json r) as [body | m].
    - destruct (Hbody body eq_refl) as [Hnull Hprint]. unfold printable in Hprint.
      destruct (to_string (chain "message" (chain "error" (Of body))))
        as [t | e] eqn:Ht; [| discriminate].
      exists (if truthy (chain "message" (chain "error" (Of body)))
              then t else "Unknown error").
      intros s0. unfold bind. cbn [pure].
      rewrite (error_detail_value body Hnull), Ht.
      destruct (truthy _); reflexivity.
    - exists "Unknown error". intros s0. reflexivity. }
  destruct Hd as [d Hd].
  rewrite (failed_response_error process s img dataUrl r d Himg Hkey Hok Hd).
  rewrite Hst, status_401_message. reflexivity.
Qed.

(** The detail of a body that carries a non-empty [error.message] string is
    that string. *)
Lemma detail_present (body : Json) (d : string) :
  chain "message" (chain "error" (Of body)) = Of (JString d) ->
  d <> "" ->
  forall s, error_detail (Of body) s = (s, Normal d).
Proof.
  intros Hm Hd st.
  apply chain_defined in Hm as [Hmsg Herr].
  destruct (chain "error" (Of body)) as [| je] eqn:He; [discriminate |].
  apply chain_defined in He as [He _].
  unfold error_detail. rewrite He. cbn [lift bind pure].
  destruct je; try discriminate; rewrite Hmsg; cbn [lift bind pure truthy to_string json_to_string];
    destruct d; try congruence; reflexivity.
Qed.

(** X12. A 429 response whose body carries the detail [d] is reported as a
    rate limit exactly when [d] contains neither 401 nor 403. *)
Theorem status_429_rate_limit (process : option (gmap string string))
    (s : State) (img : File) (dataUrl : string) (r : Response)
    (body : Json) (d : string) :
  image s = Some img ->
  JS.truthy (API_KEY process) = true ->
  ok r = false ->
  status r = 429 ->
  json r = Parsed body ->
  chain "message" (chain "error" (Of body)) = Of (JString d) ->
  d <> "" ->
  (error (convert process (mkAttempt (Loaded dataUrl) (Responded r)) s) =
     "Rate limit exceeded. Please wait a moment and try again."
   <-> JS.includes "401" d = false /\ JS.includes "403" d = false).
Proof.
  intros Himg Hkey Hok Hst Hjson Hmsg Hd.
  assert (Hdet : forall s0,
             (errorData <- response_json_or_empty r ;; error_detail errorData)%cmd s0
             = (s0, Normal d)).
  { intros s0. unfold response_json_or_empty. rewrite Hjson.
    unfold bind. cbn [pure]. apply (detail_present body d Hmsg Hd). }
  rewrite (failed_response_error process s img dataUrl r d Himg Hkey Hok Hdet).
  rewrite Hst. unfold on_error.
  change (JS.includes "401" (failure_text 429 d)) with (JS.includes "401" d).
  change (JS.includes "403" (failure_text 429 d)) with (JS.includes "403" d).
  change (JS.includes "429" (failure_text 429 d)) with true.
  destruct (JS.includes "401" d); [split; [discriminate | intros [? _]; discriminate] |].
  destruct (JS.includes "403" d); [split; [discriminate | intros [_ ?]; discriminate] |].
  split; [auto | reflexivity].
Qed.

(** X13. The text with which parsing an error body fails never reaches the
    user: a non-success response with an unreadable body is handled as one
    whose body is the empty object. *)
Theorem unreadable_error_body (process : option (gmap string string))
    (rd : ReadOutcome) (code : Z) (m : string) (s : State) :
  convert process (mkAttempt rd (Responded (mkResponse false code (Unparsable m)))) s =
  convert process (mkAttempt rd (Responded (mkResponse false code (Parsed (JObject []))))) s.
Proof.
  unfold convert, convertToLatex, tryConvert.
  destruct (image s) as [img |]; [| reflexivity].
  rewrite !call_then. unfold try_catch_finally.
  destruct (JS.truthy (API_KEY process)); [| reflexivity].
  destruct rd; reflexivity.
Qed.

(** ** White space at the ends of a string *)

Lemma append_cons (a : ascii) (x y : string) :
  String a x +:+ y = String a (x +:+ y).
Proof. reflexivity. Qed.

Lemma append_nil (y : string) : "" +:+ y = y.
Proof. reflexivity. Qed.

Lemma keep_skip (n : nat) (s : string) : keep n s +:+ skip n s = s.
Proof.
  revert s. induction n as [| n IH]; intros [| a r]; try reflexivity.
  cbn [keep skip]. rewrite append_cons. f_equal. apply IH.
Qed.

Lemma append_empty (s : string) : s +:+ "" = s.
Proof.
  induction s as [| a r IH]; [reflexivity |]. rewrite append_cons. now rewrite IH.
Qed.

Lemma append_assoc (x y z : string) : (x +:+ y) +:+ z = x +:+ y +:+ z.
Proof.
  induction x as [| a r IH]; [reflexivity |].
  rewrite !append_cons. now rewrite IH.
Qed.

Lemma trimStart_unfold (s : string) :
  JS.trimStart s =
    match JS.white_len s with
    | O => s
    | S _ => JS.trimStart (skip (JS.white_len s) s)
    end.
Proof.
  destruct s as [| a r]; [reflexivity |].
  cbn [JS.trimStart JS.white_len].
  destruct (JS.white1 a); [reflexivity |].
  destruct (JS.starts2 a).
  { destruct r as [| b r2]; [reflexivity |]. destruct (JS.white2 a b); reflexivity. }
  destruct (JS.starts3 a); [| reflexivity].
  destruct r as [| b [| c r3]]; try reflexivity.
  destruct (JS.white3 a b c); reflexivity.
Qed.

(** The white-space character at the head of a string. *)
Lemma white_len_char (s : string) :
  JS.white_len s <> O -> white_char (keep (JS.white_len s) s).
Proof.
  unfold white_char. destruct s as [| a r]; [simpl; congruence |].
  cbn [JS.white_len].
  destruct (JS.white1 a) eqn:H1.
  { intros _. simpl. rewrite H1. split; [discriminate | reflexivity]. }
  destruct (JS.starts2 a) eqn:H2.
  { destruct r as [| b r2]; [congruence |].
    destruct (JS.white2 a b) eqn:H22; [| congruence].
    intros _. simpl. rewrite H1, H2, H22. split; [discriminate | reflexivity]. }
  destruct (JS.starts3 a) eqn:H3; [| congruence].
  destruct r as [| b [| c r3]]; try congruence.
  destruct (JS.white3 a b c) eqn:H33; [| congruence].
  intros _. simpl. rewrite H1, H2, H3, H33. split; [discriminate | reflexivity].
Qed.

(** A white-space character at the head of a longer string is seen whole. *)
Lemma white_char_head (w y : string) :
  white_char w ->
  JS.white_len (w +:+ y) = String.length w /\ skip (String.length w) (w +:+ y) = y.
Proof.
  intros [Hne Hlen]. destruct w as [| a r]; [congruence |].
  revert Hlen. rewrite ?append_cons; cbn [JS.white_len].
  destruct (JS.white1 a).
  { destruct r; simpl; [intros _; split; reflexivity | discriminate]. }
  destruct (JS.starts2 a).
  { destruct r as [| b r2]; [discriminate |].
    rewrite ?append_cons. destruct (JS.white2 a b); [| discriminate].
    destruct r2; simpl; [intros _; split; reflexivity | discriminate]. }
  destruct (JS.starts3 a); [| discriminate].
  destruct r as [| b [| c r3]]; try discriminate.
  rewrite ?append_cons. destruct (JS.white3 a b c); [| discriminate].
  destruct r3; simpl; [intros _; split; reflexivity | discriminate].
Qed.

Lemma skip_shorter (n : nat) (s : string) :
  n <> O -> s <> "" -> (String.length (skip n s) < String.length s)%nat.
Proof.
  intros Hn Hs. destruct n as [| n]; [congruence |].
  destruct s as [| a r]; [congruence |]. simpl. clear.
  revert r. induction n as [| n IH]; intros r; [simpl; lia |].
  destruct r as [| b r]; simpl; [lia |]. specialize (IH r). lia.
Qed.

Lemma trimStart_split (s : string) :
  exists lead, s = lead +:+ JS.trimStart s /\ blank lead.
Proof.
  remember (String.length s) as n eqn:Hn.
  assert (Hle : (String.length s <= n)%nat) by lia. clear Hn.
  revert s Hle. induction n as [| n IH]; intros s Hle.
  - destruct s; [| simpl in Hle; lia]. exists "". split; [reflexivity | constructor].
  - rewrite trimStart_unfold.
    destruct (JS.white_len s) as [| k] eqn:Hk.
    + exists "". split; [reflexivity | constructor].
    + assert (Hs : s <> "") by (intros ->; discriminate).
      assert (Hshort := skip_shorter (S k) s ltac:(discriminate) Hs).
      destruct (IH (skip (S k) s) ltac:(lia)) as (lead & Heq & Hblank).
      exists (keep (S k) s +:+ lead). split.
      * rewrite append_assoc, <- Heq. symmetry. apply keep_skip.
      * constructor; [| exact Hblank].
        rewrite <- Hk. apply white_len_char. congruence.
Qed.

Lemma trimStart_head (s : string) : JS.white_len (JS.trimStart s) = O.
Proof.
  remember (String.length s) as n eqn:Hn.
  assert (Hle : (String.length s <= n)%nat) by lia. clear Hn.
  revert s Hle. induction n as [| n IH]; intros s Hle.
  - destruct s; [reflexivity | simpl in Hle; lia].
  - rewrite trimStart_unfold.
    destruct (JS.white_len s) as [| k] eqn:Hk; [exact Hk |].
    assert (Hs : s <> "") by (intros ->; discriminate).
    assert (Hshort := skip_shorter (S k) s ltac:(discriminate) Hs).
    apply IH. lia.
Qed.

Lemma blank_trimStart (s : string) : blank s -> JS.trimStart s = "".
Proof.
  induction 1 as [| w s Hw Hs IH]; [reflexivity |].
  rewrite trimStart_unfold.
  destruct (white_char_head w s Hw) as [Hlen Hskip].
  rewrite Hlen. destruct Hw as [Hne _].
  destruct w; [congruence |]. cbn [String.length].
  cbn [String.length] in Hskip. rewrite Hskip. exact IH.
Qed.

Lemma trimStart_blank (s : string) : JS.trimStart s = "" -> blank s.
Proof.
  intros H. destruct (trimStart_split s) as (lead & Heq & Hblank).
  rewrite H, append_empty in Heq. now subst.
Qed.

Lemma trimEnd_split (s : string) :
  exists tail, s = JS.trimEnd s +:+ tail /\ blank tail.
Proof.
  induction s as [| a r IH].
  - exists "". split; [reflexivity | constructor].
  - cbn [JS.trimEnd]. destruct (JS.trimStart (String a r)) eqn:Hs.
    + exists (String a r). split; [reflexivity | now apply trimStart_blank].
    + destruct IH as (tail & Heq & Hblank). exists tail.
      split; [| exact Hblank]. rewrite append_cons. now rewrite <- Heq.
Qed.

Lemma trimEnd_tail (s : string) : ~ ends_white (JS.trimEnd s).
Proof.
  induction s as [| a r IH]; intros (p & w & Heq & Hw).
  - destruct Hw as [Hne _]. cbn [JS.trimEnd] in Heq.
    destruct p; [rewrite append_nil in Heq; congruence | discriminate].
  - cbn [JS.trimEnd] in Heq.
    destruct (JS.trimStart (String a r)) eqn:Hs.
    + destruct Hw as [Hne _].
      destruct p; [rewrite append_nil in Heq; congruence | discriminate].
    + destruct p as [| a' p'].
      * rewrite append_nil in Heq.
        destruct (trimEnd_split r) as (tail & Hr & Hblank).
        assert (Hall : blank (String a r)).
        { rewrite Hr. change (blank (String a (JS.trimEnd r) +:+ tail)).
          rewrite Heq. now constructor. }
        apply blank_trimStart in Hall. congruence.
      * rewrite append_cons in Heq. injection Heq as _ Heq.
        apply IH. exists p', w. split; assumption.
Qed.

Lemma trimEnd_head (s : string) :
  JS.white_len s = O -> JS.white_len (JS.trimEnd s) = O.
Proof.
  destruct s as [| a r]; [reflexivity |].
  cbn [JS.trimEnd]. destruct (JS.trimStart (String a r)); [reflexivity |].
  cbn [JS.white_len].
  destruct (JS.white1 a); [discriminate |].
  destruct (JS.starts2 a).
  { destruct r as [| b r2]; [reflexivity |]. cbn [JS.trimEnd].
    destruct (JS.trimStart (String b r2)); [reflexivity |].
    destruct (JS.white2 a b); [discriminate | reflexivity]. }
  destruct (JS.starts3 a); [| reflexivity].
  destruct r as [| b r2]; [reflexivity |]. cbn [JS.trimEnd].
  destruct (JS.trimStart (String b r2)); [reflexivity |].
  destruct r2 as [| c r3]; [reflexivity |]. cbn [JS.trimEnd].
  destruct (JS.trimStart (String c r3)); [reflexivity |].
  destruct (JS.white3 a b c); [discriminate | reflexivity].
Qed.

(** [trim] removes the white space at both ends and nothing else. *)
Lemma trim_spec (s : string) :
  (exists lead tail, s = lead +:+ JS.trim s +:+ tail /\ blank lead /\ blank tail) /\
  JS.white_len (JS.trim s) = O /\
  ~ ends_white (JS.trim s).
Proof.
  unfold JS.trim. split; [| split].
  - destruct (trimStart_split s) as (lead & Hs & Hlead).
    destruct (trimEnd_split (JS.trimStart s)) as (tail & Ht & Htail).
    exists lead, tail. split; [| split; assumption].
    now rewrite <- Ht.
  - apply trimEnd_head, trimStart_head.
  - apply trimEnd_tail.
Qed.

(** ** What a successful conversion stores *)

Lemma success_stores (process : option (gmap string string)) (s : State)
    (img : File) (dataUrl : string) (r : Response) (body : Json) (t : string) :
  image s = Some img ->
  JS.truthy (API_KEY process) = true ->
  ok r = true ->
  json r = Parsed body ->
  first_block_text body = Of (JString t) ->
  JS.truthy t = true ->
  convert process (mkAttempt (Loaded dataUrl) (Responded r)) s =
    setIsConverting false
      (setLatexCode (JS.trim t)
         (doFetch (request (API_KEY process) img (JS.split_comma_1 dataUrl)
                           (instructions s))
            (setLatexCode "" (setError "" (setIsConverting true s))))).
Proof.
  intros Himg Hkey Hok Hjson Ht Htruthy.
  destruct (text_present body t Ht) as [Hbad Htrim].
  unfold convert, convertToLatex, tryConvert. rewrite Himg, !call_then.
  unfold try_catch_finally. rewrite Hkey.
  cbn [negb when read net read_base64].
  do 3 (unfold bind at 1; cbn [pure fetch]).
  rewrite Hok. cbn [negb when].
  unfold bind at 1. cbn [pure].
  unfold response_json. rewrite Hjson.
  unfold bind at 1. cbn [pure].
  unfold bind at 1. rewrite Hbad, Htruthy. cbn [negb when].
  unfold bind at 1. cbn [pure].
  unfold bind. rewrite Htrim. reflexivity.
Qed.

(** X14. The result stored by a successful conversion is the text of the
    response without the white space at its two ends: the text is the
    result between two runs of white-space characters, and the result
    neither begins nor ends with a white-space character. *)
Theorem stored_result_trimmed (process : option (gmap string string)) (s : State)
    (img : File) (dataUrl : string) (r : Response) (body : Json) (t : string) :
  image s = Some img ->
  JS.truthy (API_KEY process) = true ->
  ok r = true ->
  json r = Parsed body ->
  first_block_text body = Of (JString t) ->
  t <> "" ->
  (exists lead tail,
      t = lead
          +:+ latexCode (convert process
                           (mkAttempt (Loaded dataUrl) (Responded r)) s)
          +:+ tail /\
      blank lead /\ blank tail) /\
  JS.white_len (latexCode (convert process
                             (mkAttempt (Loaded dataUrl) (Responded r)) s)) = O /\
  ~ ends_white (latexCode (convert process
                             (mkAttempt (Loaded dataUrl) (Responded r)) s)).
Proof.
  intros Himg Hkey Hok Hjson Ht Hne.
  assert (Htruthy : JS.truthy t = true) by (destruct t; [congruence | reflexivity]).
  rewrite (success_stores process s img dataUrl r body t Himg Hkey Hok Hjson Ht Htruthy).
  cbn [latexCode setIsConverting setLatexCode]. apply trim_spec.
Qed.

(** X15. A successful response whose text is not empty but holds nothing
    except white-space characters leaves the component with neither a
    result nor an error to show. *)
Theorem blank_text_shows_nothing (process : option (gmap string string)) (s : State)
    (img : File) (dataUrl : string) (r : Response) (body : Json) (t : string) :
  image s = Some img ->
  JS.truthy (API_KEY process) = true ->
  ok r = true ->
  json r = Parsed body ->
  first_block_text body = Of (JString t) ->
  t <> "" ->
  blank t ->
  copyShown (convert process (mkAttempt (Loaded dataUrl) (Responded r)) s) = false /\
  errorShown (convert process (mkAttempt (Loaded dataUrl) (Responded r)) s) = false /\
  isConverting (convert process (mkAttempt (Loaded dataUrl) (Responded r)) s) = false.
Proof.
  intros Himg Hkey Hok Hjson Ht Hne Hblank.
  assert (Htruthy : JS.truthy t = true) by (destruct t; [congruence | reflexivity]).
  rewrite (success_stores process s img dataUrl r body t Himg Hkey Hok Hjson Ht Htruthy).
  unfold copyShown, errorShown.
  cbn [latexCode error isConverting setIsConverting setLatexCode doFetch setError].
  unfold JS.trim. rewrite (blank_trimStart t Hblank). repeat split.
Qed.

(** ** Conversions and what was on screen before *)

(** X16. What a started conversion leaves behind does not depend on the
    result and error that were displayed when it started. *)
Theorem conversion_forgets_previous_output (process : option (gmap string string))
    (o : Attempt) (s : State) (img : File) (l e : string) :
  image s = Some img ->
  convert process o (setLatexCode l (setError e s)) = convert process o s.
Proof.
  intros Himg. unfold convert, convertToLatex, tryConvert.
  cbn [image setLatexCode setError]. rewrite Himg. reflexivity.
Qed.

(** X17. After a reset the convert button is disabled and nothing is shown;
    were the conversion called all the same, it would only report the
    missing image: no request, no result, the flag untouched. *)
Theorem convert_after_reset (process : option (gmap string string))
    (o : Attempt) (s : State) :
  convertDisabled (resetTool s) = true /\
  copyShown (resetTool s) = false /\
  errorShown (resetTool s) = false /\
  error (convert process o (resetTool s)) = "Please upload an image first" /\
  latexCode (convert process o (resetTool s)) = "" /\
  fetched (convert process o (resetTool s)) = fetched s /\
  isConverting (convert process o (resetTool s)) = isConverting s.
Proof.
  unfold convert, convertToLatex, tryConvert, convertDisabled, copyShown, errorShown, resetTool.
  simpl. destruct (fileInput s); simpl; repeat split.
Qed.

(** ** What every sequence of operations keeps *)

Lemma convert_clears_flag (process : option (gmap string string))
    (o : Attempt) (s : State) (img : File) :
  image s = Some img -> isConverting (convert process o s) = false.
Proof.
  intros Himg. unfold convert, convertToLatex, tryConvert. rewrite Himg, !call_then.
  match goal with
  | |- context [try_catch_finally ?b ?h (call ?f) ?x] =>
      destruct (finally_last b h f x) as [s' ->]
  end.
  reflexivity.
Qed.

Lemma tidy_initial : tidy initial.
Proof. repeat split. Qed.

Lemma step_tidy (process : option (gmap string string)) (op : Op) (s : State) :
  tidy s -> tidy (step process op s).
Proof.
  intros (Hflag & Hres & Hprev).
  destruct op as [file r | o | p f | | | | v]; simpl.
  - unfold upload, handleImageUpload.
    destruct (rejected (validateFile process file)) eqn:Hr.
    + repeat split; simpl; assumption.
    + destruct (accepted_is_file process file Hr) as [f ->].
      destruct r; (split; [exact Hflag | split; intros Hi; simpl in Hi; discriminate]).
  - destruct (image s) as [img |] eqn:Himg.
    + destruct (convert_started process o s img Himg) as (Hi & _).
      split; [apply (convert_clears_flag process o s img Himg) |].
      split; intros Hn; rewrite Hi in Hn; discriminate.
    + rewrite (convert_no_image process o s Himg).
      repeat split; simpl; auto.
  - unfold copyToClipboard.
    destruct (negb (JS.truthy (latexCode s))); [repeat split; simpl; assumption |].
    destruct p; [| destruct f]; repeat split; simpl; assumption.
  - unfold resetTool. simpl. destruct (fileInput s); repeat split; simpl; assumption.
  - repeat split; simpl; assumption.
  - repeat split; simpl; assumption.
  - repeat split; simpl; assumption.
Qed.

(** X18. After every sequence of operations from the initial state, each run
    to its end: no conversion is left pending, a result or a preview is
    only there together with an image, and whenever the copy button is
    shown the convert button is enabled. *)
Theorem run_keeps_tidy (process : option (gmap string string)) (ops : list Op) :
  isConverting (run process ops initial) = false /\
  (latexCode (run process ops initial) <> "" ->
   image (run process ops initial) <> None) /\
  (imagePreview (run process ops initial) <> None ->
   image (run process ops initial) <> None) /\
  (copyShown (run process ops initial) = true ->
   convertDisabled (run process ops initial) = false).
Proof.
  assert (Ht : forall s, tidy s -> tidy (run process ops s)).
  { induction ops as [| op rest IH]; intros s Hs; [exact Hs |].
    simpl. apply IH, step_tidy, Hs. }
  destruct (Ht initial tidy_initial) as (Hflag & Hres & Hprev).
  split; [exact Hflag |].
  split; [intros Hl Hi; apply Hl, Hres, Hi |].
  split; [intros Hp Hi; apply Hp, Hprev, Hi |].
  unfold copyShown, convertDisabled. rewrite Hflag.
  destruct (image (run process ops initial)); [reflexivity |].
  rewrite (Hres eq_refl). discriminate.
Qed.

(** ** The request *)

Lemma prefix_append (n b : string) : String.prefix n (n +:+ b) = true.
Proof.
  induction n as [| c n IH]; simpl; [now destruct b |].
  destruct (ascii_dec c c); [exact IH | congruence].
Qed.

Lemma includes_here (n h : string) :
  String.prefix n h = true -> JS.includes n h = true.
Proof. intros H. destruct h; cbn [JS.includes]; now rewrite H. Qed.

Lemma includes_append (a n b : string) : JS.includes n (a +:+ n +:+ b) = true.
Proof.
  induction a as [| c a IH].
  - change ("" +:+ n +:+ b) with (n +:+ b). apply includes_here, prefix_append.
  - change (String.prefix n (String c (a +:+ n +:+ b))
            || JS.includes n (a +:+ n +:+ b) = true).
    rewrite IH. apply orb_true_r.
Qed.

(** X19. The text of the request carries the user's instructions verbatim,
    under their heading, whenever there are any; without instructions the
    heading does not appear. *)
Theorem request_carries_instructions (key : string) (img : File)
    (base64Data : option string) (instructions : string) :
  (instructions <> "" ->
   JS.includes (newline +:+ "SPECIAL USER INSTRUCTIONS:" +:+ newline +:+
                instructions +:+ newline)
               (text (request key img base64Data instructions)) = true) /\
  (instructions = "" ->
   JS.includes "SPECIAL USER INSTRUCTIONS"
               (text (request key img base64Data instructions)) = false).
Proof.
  split.
  - intros Hne. cbn [text request]. unfold prompt.
    destruct instructions as [| c t]; [congruence |]. cbn [JS.truthy].
    apply includes_append.
  - intros ->. vm_compute. reflexivity.
Qed.

Lemma upto_comma_free (s : string) : comma_free s = true -> JS.upto_comma s = s.
Proof.
  induction s as [| c r IH]; [reflexivity |]. simpl.
  destruct (Ascii.eqb c ","); [discriminate |]. simpl.
  intros H. now rewrite IH.
Qed.

(** X20. From a data URL with a single comma the request takes what follows
    the comma; from a text without a comma it takes nothing. *)
Theorem base64_of_data_url (header payload : string) :
  comma_free header = true ->
  comma_free payload = true ->
  JS.split_comma_1 (header +:+ "," +:+ payload) = Some payload /\
  JS.split_comma_1 header = None.
Proof.
  intros Hh Hp. induction header as [| c r IH]; simpl.
  - split; [now rewrite upto_comma_free | reflexivity].
  - simpl in Hh. destruct (Ascii.eqb c ","); [discriminate |].
    apply IH. exact Hh.
Qed.

(** ** A size setting followed by other text *)

Lemma parse_digits_stop (d : Decimal.uint) (c : ascii) (rest : string) :
  stops c = true ->
  forall acc,
    JS.parse_digits 10 (NilEmpty.string_of_uint d +:+ String c rest) acc =
    JS.parse_digits 10 (NilEmpty.string_of_uint d) acc.
Proof.
  intros Hc. unfold stops in Hc.
  induction d; intros acc;
    [ change (JS.parse_digits 10 (String c rest) acc = acc) | ..].
  - cbn [JS.parse_digits].
    destruct (JS.digit_value c) as [dv |]; [| reflexivity].
    apply negb_true_iff in Hc. now rewrite Hc.
  - apply IHd.
  - apply IHd.
  - apply IHd.
  - apply IHd.
  - apply IHd.
  - apply IHd.
  - apply IHd.
  - apply IHd.
  - apply IHd.
  - apply IHd.
Qed.

Lemma parse_digits_numeral_then (d : Decimal.uint) (c : ascii) (rest : string) :
  stops c = true ->
  JS.parse_digits 10 (NilZero.string_of_uint d +:+ String c rest) None =
    Some (Z.of_N (Pos.of_uint d)).
Proof.
  intros Hc.
  rewrite <- (parse_digits_zero d), <- (parse_digits_stop d c rest Hc (Some 0)).
  destruct d; reflexivity.
Qed.

(** A numeral followed by a character that is neither a digit nor an [x]
    is read as the numeral alone. *)
Lemma parseInt_numeral_then (d : Decimal.uint) (c : ascii) (rest : string) :
  stops c = true -> c <> "x"%char -> c <> "X"%char ->
  JS.parseInt (NilZero.string_of_uint d +:+ String c rest)
    = JS.Num (Z.of_N (Pos.of_uint d)) /\
  JS.parseInt (String "-" (NilZero.string_of_uint d +:+ String c rest))
    = JS.Num (- Z.of_N (Pos.of_uint d)).
Proof.
  intros Hc Hx HX.
  assert (H : JS.parseInt (NilZero.string_of_uint d +:+ String c rest) =
              match JS.parse_digits 10 (NilZero.string_of_uint d +:+ String c rest)
                      None with
              | None => JS.NaN
              | Some n => JS.Num (1 * n)
              end /\
              JS.parseInt (String "-" (NilZero.string_of_uint d +:+ String c rest)) =
              match JS.parse_digits 10 (NilZero.string_of_uint d +:+ String c rest)
                      None with
              | None => JS.NaN
              | Some n => JS.Num (-1 * n)
              end).
  { assert (Hzero : forall tail,
               JS.parseInt (String "0" (String c tail)) =
               match JS.parse_digits 10 (String "0" (String c tail)) None with
               | None => JS.NaN
               | Some n => JS.Num (1 * n)
               end /\
               JS.parseInt (String "-" (String "0" (String c tail))) =
               match JS.parse_digits 10 (String "0" (String c tail)) None with
               | None => JS.NaN
               | Some n => JS.Num (-1 * n)
               end).
    { intros tail. clear Hc.
      destruct c as [b0 b1 b2 b3 b4 b5 b6 b7].
      destruct b0, b1, b2, b3, b4, b5, b6, b7;
        first [ split; reflexivity | exfalso; congruence ]. }
    destruct d as [| l | l | l | l | l | l | l | l | l | l];
      try (split; reflexivity);
      [ apply Hzero | destruct l; first [apply Hzero | split; reflexivity] ]. }
  destruct H as [-> ->]. rewrite (parse_digits_numeral_then d c rest Hc).
  split; f_equal; lia.
Qed.

(** X21. Text after the number in the size setting is ignored: a setting
    that starts with the decimal text of an integer [n] of magnitude up to
    2^53 (the range in which [parseInt] and the products with 1024 are
    exact) and goes on with a character that is neither a digit nor an
    [x] gives a ceiling of [n] binary megabytes. *)
Theorem size_setting_trailing_text (env : gmap string string) (n : Z)
    (c : ascii) (rest : string) :
  Z.abs n <= 2 ^ 53 ->
  env !! "REACT_APP_MAX_FILE_SIZE_MB" = Some (JS.decimal n +:+ String c rest) ->
  stops c = true -> c <> "x"%char -> c <> "X"%char ->
  MAX_FILE_SIZE (Some env) = JS.Num (n * 1024 * 1024).
Proof.
  intros _ Hset Hc Hx HX. unfold MAX_FILE_SIZE, getEnvVar. rewrite Hset.
  assert (Ht : JS.truthy (JS.decimal n +:+ String c rest) = true).
  { pose proof (decimal_truthy n) as Hd.
    destruct (JS.decimal n); [discriminate | reflexivity]. }
  unfold JS.or_else. rewrite Ht.
  assert (Hp : JS.parseInt (JS.decimal n +:+ String c rest) = JS.Num n).
  { unfold JS.decimal. destruct n as [| p | p];
      cbn [Z.to_int NilZero.string_of_int].
    - apply (parseInt_numeral_then Decimal.zero c rest Hc Hx HX).
    - destruct (parseInt_numeral_then (Pos.to_uint p) c rest Hc Hx HX) as [-> _].
      now rewrite DecimalPos.Unsigned.of_to.
    - destruct (parseInt_numeral_then (Pos.to_uint p) c rest Hc Hx HX) as [_ Hn].
      change (JS.parseInt (String "-" (NilZero.string_of_uint (Pos.to_uint p)
                                       +:+ String c rest)) = JS.Num (Z.neg p)).
      rewrite Hn. now rewrite DecimalPos.Unsigned.of_to. }
  rewrite Hp. reflexivity.
Qed.


(** ** The size message *)

(** X22. A file that exceeds the ceiling of [mb] megabytes by less than
    0.005 MB is refused with a message that prints its size as exactly the
    ceiling. *)
Theorem barely_over_message (process : option (gmap string string)) (f : File)
    (mb k : Z) :
  In (ftype f) SUPPORTED_FORMATS ->
  JS.parseInt (getEnvVar process "REACT_APP_MAX_FILE_SIZE_MB" "25") = JS.Num mb ->
  0 <= mb ->
  Z.of_N (fsize f) = mb * 1048576 + k ->
  0 < k < 5243 ->
  validateFile process (Some f) =
    Some ("File size must be less than " +:+ JS.decimal mb +:+
          "MB. Current size: " +:+ (JS.decimal mb +:+ ".00") +:+ "MB").
Proof.
  intros Hin Hparse Hmb Hsize Hk. apply supported_In in Hin.
  unfold validateFile, size_message, MAX_FILE_SIZE.
  rewrite Hin, Hparse, Hsize. cbn [negb JS.mul JS.gt JS.div].
  assert (Hover : (mb * 1024 * 1024 <? mb * 1048576 + k) = true)
    by (apply Z.ltb_lt; lia).
  rewrite Hover.
  assert (Hq : mb * 1024 * 1024 / (1024 * 1024) = mb)
    by (replace (mb * 1024 * 1024) with (mb * (1024 * 1024)) by lia;
        apply Z.div_mul; lia).
  change (1024 * 1024 =? 0) with false. cbn iota. rewrite Hq.
  unfold JS.toFixed2.
  assert (Hn : (200 * (mb * 1048576 + k) + 1024 * 1024) / (2 * (1024 * 1024))
               = 100 * mb).
  { symmetry. apply (Z.div_unique _ _ _ (200 * k + 1048576)); lia. }
  rewrite Hn.
  replace (100 * mb / 100) with mb by (symmetry; rewrite Z.mul_comm; apply Z.div_mul; lia).
  replace (100 * mb mod 100) with 0 by (symmetry; rewrite Z.mul_comm; apply Z.mod_mul; lia).
  reflexivity.
Qed.

(** ** Demo mode *)

(** X23. In demo mode a conversion does not look at what the browser would
    answer, and converting again changes nothing. *)
Theorem demo_conversion_repeatable (process : option (gmap string string))
    (o1 o2 : Attempt) (s : State) (img : File) :
  API_KEY process = "" ->
  image s = Some img ->
  convert process o2 s = convert process o1 s /\
  convert process o2 (convert process o1 s) = convert process o1 s.
Proof.
  intros Hkey Himg.
  assert (Hdemo : forall o st, image st = Some img ->
            convert process o st =
              setIsConverting false
                (setLatexCode demoLatex
                   (setLatexCode "" (setError "" (setIsConverting true st))))).
  { intros o st Hi. unfold convert, convertToLatex, tryConvert. rewrite Hi, Hkey.
    rewrite !call_then. reflexivity. }
  split.
  - now rewrite !Hdemo.
  - rewrite (Hdemo o1 s Himg). rewrite Hdemo by exact Himg. reflexivity.
Qed.

End Host.

(** * The properties on examples *)

(** From here on the engine is V8. *)
#[global] Existing Instance v8.

Lemma unsupported_type_rejected_witness :
  ~ In (ftype text_file) SUPPORTED_FORMATS /\
  validateFile no_key (Some text_file) =
    Some "Please upload a valid image file (PNG, JPG, JPEG, GIF, WebP)".
Proof.
  assert (Hout : ~ In (ftype text_file) SUPPORTED_FORMATS).
  { apply supported_not_In. reflexivity. }
  split; [exact Hout | exact (unsupported_type_rejected no_key text_file Hout)].
Defined.

Lemma size_ceiling_exact_witness :
  In (ftype ceiling_png) SUPPORTED_FORMATS /\
  MAX_FILE_SIZE no_key = JS.Num 26214400 /\
  validateFile no_key (Some ceiling_png) = None.
Proof.
  assert (Hin : In (ftype ceiling_png) SUPPORTED_FORMATS) by (simpl; tauto).
  assert (Hmax : MAX_FILE_SIZE no_key = JS.Num 26214400) by reflexivity.
  split; [exact Hin | split; [exact Hmax |]].
  apply (size_ceiling_exact no_key ceiling_png 26214400 Hin Hmax).
  reflexivity.
Defined.

Example one_byte_over :
  validateFile no_key (Some (mkFile "image/png" 26214401)) =
    Some "File size must be less than 25MB. Current size: 25.00MB".
Proof. vm_compute. reflexivity. Qed.

Lemma nan_ceiling_accepts_all_witness :
  JS.parseInt (getEnvVar bad_size "REACT_APP_MAX_FILE_SIZE_MB" "25") = JS.NaN /\
  validateFile bad_size (Some huge_png) = None.
Proof.
  assert (Hnan : JS.parseInt (getEnvVar bad_size "REACT_APP_MAX_FILE_SIZE_MB" "25")
                 = JS.NaN) by (vm_compute; reflexivity).
  split; [exact Hnan |].
  apply (nan_ceiling_accepts_all bad_size huge_png Hnan). simpl; tauto.
Defined.

Example showing_result_fields :
  latexCode showing_result = demoLatex /\ error showing_result = "" /\
  image showing_result = Some small_png.
Proof. vm_compute. repeat split. Qed.

(** C1, as stated, fails: a refused upload leaves the displayed result in
    place. Here the demo result is on screen, a text file is dropped, and
    the result is still there next to the validation message. *)
Lemma refused_upload_keeps_result :
  validateFile no_key (Some text_file) <> None /\
  latexCode showing_result <> "" /\
  latexCode (handleImageUpload no_key (Some text_file) showing_result)
    = latexCode showing_result /\
  latexCode (upload no_key (Some text_file) (Loaded data_url) showing_result) <> "".
Proof. vm_compute. repeat split; discriminate. Qed.

Lemma converting_flag_cleared_witness :
  image showing_result = Some small_png /\
  isConverting (convert with_key offline showing_result) = false.
Proof.
  assert (Himg : image showing_result = Some small_png) by (vm_compute; reflexivity).
  split; [exact Himg |].
  exact (converting_flag_cleared with_key offline showing_result small_png Himg).
Defined.

Lemma demo_conversion_witness :
  API_KEY no_key = "" /\
  image showing_result = Some small_png /\
  latexCode (convert no_key offline showing_result) = demoLatex /\
  fetched (convert no_key offline showing_result) = [].
Proof.
  assert (Hkey : API_KEY no_key = "") by reflexivity.
  assert (Himg : image showing_result = Some small_png) by (vm_compute; reflexivity).
  destruct (demo_conversion no_key offline showing_result small_png Hkey Himg)
    as (Hl & _ & Hf & _).
  split; [exact Hkey | split; [exact Himg | split; [exact Hl | exact Hf]]].
Defined.

(** C2, as stated, fails: after an upload, a demo conversion and the upload
    of a text file, the sample result and the validation message are both
    set. *)
Lemma result_and_error_both_set :
  latexCode (run no_key [Upload (Some small_png) (Loaded data_url);
                         Convert offline;
                         Upload (Some text_file) (Loaded data_url)] initial)
    = demoLatex /\
  error (run no_key [Upload (Some small_png) (Loaded data_url);
                     Convert offline;
                     Upload (Some text_file) (Loaded data_url)] initial)
    = "Please upload a valid image file (PNG, JPG, JPEG, GIF, WebP)" /\
  ~ exclusive (run no_key [Upload (Some small_png) (Loaded data_url);
                           Convert offline;
                           Upload (Some text_file) (Loaded data_url)] initial).
Proof.
  split; [vm_compute; reflexivity |].
  split; [vm_compute; reflexivity |].
  intros [H | H]; vm_compute in H; discriminate.
Qed.

(** The same with a conversion in flight: a drop is refused while the
    conversion is pending, and when the conversion settles its result
    stands next to the message of the drop. *)
Example refused_drop_while_pending :
  latexCode (ui (play no_key refused_while_pending (fresh initial))) = demoLatex /\
  error (ui (play no_key refused_while_pending (fresh initial)))
    = "Please upload a valid image file (PNG, JPG, JPEG, GIF, WebP)" /\
  disturbed no_key refused_while_pending (fresh initial) false = true.
Proof. vm_compute. repeat split. Qed.

Lemma exclusive_unless_disturbed_witness :
  disturbed no_key recovered_session (fresh initial) false = false /\
  exclusive (ui (play no_key recovered_session (fresh initial))) /\
  rejected (validateFile no_key (Some text_file)) = true /\
  latexCode showing_result <> "" /\
  ~ exclusive (handleImageUpload no_key (Some text_file) showing_result).
Proof.
  assert (Hd : disturbed no_key recovered_session (fresh initial) false = false)
    by (vm_compute; reflexivity).
  assert (Hr : rejected (validateFile no_key (Some text_file)) = true)
    by (vm_compute; reflexivity).
  assert (Hl : latexCode showing_result <> "") by (vm_compute; discriminate).
  destruct (exclusive_unless_disturbed no_key recovered_session) as [Hex Hboth].
  split; [exact Hd | split; [exact (Hex Hd) | split; [exact Hr | split; [exact Hl |]]]].
  exact (proj2 (proj2 (Hboth (Some text_file) showing_result Hr Hl))).
Defined.


Example missing_text_reported :
  error (convert with_key
           (mkAttempt (Loaded data_url)
              (Responded (mkResponse true 200 (Parsed (JObject [("content", JArray [])])))))
           showing_result)
    = "Failed to convert image to LaTeX: Invalid response format from API".
Proof. vm_compute. reflexivity. Qed.

Example rate_limit_plain :
  error (convert with_key (mkAttempt (Loaded data_url) (Responded limited_plain))
                 showing_result)
    = "Rate limit exceeded. Please wait a moment and try again.".
Proof. vm_compute. reflexivity. Qed.

(** C4 fails on the code: the [catch] block searches the whole thrown text,
    detail included, for "401" before "429", so this 429 response is
    reported as an invalid key instead of a rate limit. *)
Theorem rate_limit_reported_as_invalid_key :
  ok limited_401 = false /\ status limited_401 = 429 /\
  error (convert with_key (mkAttempt (Loaded data_url) (Responded limited_401))
                 showing_result)
    = "Invalid API key. Please check your Anthropic API key in the .env.local file.".
Proof. vm_compute. repeat split. Qed.

(** The same search turns a 500 whose detail mentions 429 into a rate
    limit, while a 500 with a plain detail gets the generic message with
    status and detail. *)
Example server_error_as_rate_limit :
  error (convert with_key
           (mkAttempt (Loaded data_url)
              (Responded (mkResponse false 500
                 (Parsed (JObject [("error", JObject [("message",
                    JString "upstream answered 429")])])))))
           showing_result)
    = "Rate limit exceeded. Please wait a moment and try again.".
Proof. vm_compute. reflexivity. Qed.

Example server_error_generic :
  error (convert with_key
           (mkAttempt (Loaded data_url)
              (Responded (mkResponse false 500 (Unparsable "Unexpected end of JSON input"))))
           showing_result)
    = "Failed to convert image to LaTeX: API request failed: 500 - Unknown error".
Proof. vm_compute. reflexivity. Qed.

(** A transport failure with Chrome's text gets the connectivity message. *)
Example transport_failure :
  error (convert with_key offline showing_result)
    = "Network error. Please check your internet connection and try again.".
Proof. vm_compute. reflexivity. Qed.

Lemma size_setting_decimal_witness :
  ({[ "REACT_APP_MAX_FILE_SIZE_MB" := "10" ]} : gmap string string)
    !! "REACT_APP_MAX_FILE_SIZE_MB" = Some (JS.decimal 10) /\
  MAX_FILE_SIZE (Some {[ "REACT_APP_MAX_FILE_SIZE_MB" := "10" ]}) = JS.Num 10485760.
Proof.
  assert (Hset : ({[ "REACT_APP_MAX_FILE_SIZE_MB" := "10" ]} : gmap string string)
                   !! "REACT_APP_MAX_FILE_SIZE_MB" = Some (JS.decimal 10))
    by (vm_compute; reflexivity).
  split; [exact Hset |].
  exact (size_setting_decimal _ 10 ltac:(vm_compute; discriminate) Hset).
Defined.

Lemma defaults_when_unset_witness :
  unset (Some {[ "REACT_APP_MAX_FILE_SIZE_MB" := "" ]}) "REACT_APP_MAX_FILE_SIZE_MB" /\
  MAX_FILE_SIZE (Some {[ "REACT_APP_MAX_FILE_SIZE_MB" := "" ]}) = JS.Num 26214400.
Proof.
  assert (Hun : unset (Some {[ "REACT_APP_MAX_FILE_SIZE_MB" := "" ]})
                      "REACT_APP_MAX_FILE_SIZE_MB")
    by (right; vm_compute; reflexivity).
  split; [exact Hun |].
  exact (proj1 (defaults_when_unset _) Hun).
Defined.

Lemma negative_ceiling_rejects_all_witness :
  MAX_FILE_SIZE (Some {[ "REACT_APP_MAX_FILE_SIZE_MB" := "-1" ]}) = JS.Num (-1048576) /\
  validateFile (Some {[ "REACT_APP_MAX_FILE_SIZE_MB" := "-1" ]})
               (Some (mkFile "image/png" 0)) <> None.
Proof.
  assert (Hmax : MAX_FILE_SIZE (Some {[ "REACT_APP_MAX_FILE_SIZE_MB" := "-1" ]})
                 = JS.Num (-1048576)) by (vm_compute; reflexivity).
  split; [exact Hmax |].
  apply (negative_ceiling_rejects_all _ (-1048576) (mkFile "image/png" 0) Hmax).
  lia.
Defined.

Lemma accepted_upload_outcome_witness :
  validateFile no_key (Some small_png) = None /\
  imagePreview (upload no_key (Some small_png) ReadFailed showing_result)
    = Some data_url /\
  error (upload no_key (Some small_png) ReadFailed showing_result)
    = "Failed to read the image file".
Proof.
  assert (Hv : validateFile no_key (Some small_png) = None) by reflexivity.
  destruct (accepted_upload_outcome no_key small_png ReadFailed showing_result Hv)
    as (_ & _ & Hp & He).
  split; [exact Hv | split; [exact Hp | exact He]].
Defined.

Lemma copy_acknowledges_witness :
  latexCode showing_result <> "" /\
  copySuccess (copyToClipboard false false showing_result) = true /\
  clipboard (copyToClipboard false false showing_result) = None.
Proof.
  assert (Hl : latexCode showing_result <> "") by (vm_compute; discriminate).
  destruct (proj2 (copy_acknowledges false false showing_result) Hl)
    as (Hc & Hb & _).
  split; [exact Hl | split; [exact Hc | exact Hb]].
Defined.

Lemma one_request_per_conversion_witness :
  image showing_result = Some small_png /\
  JS.truthy (API_KEY with_key) = true /\
  length (fetched (convert with_key offline showing_result)) = 1%nat.
Proof.
  assert (Himg : image showing_result = Some small_png) by reflexivity.
  assert (Hkey : JS.truthy (API_KEY with_key) = true) by reflexivity.
  split; [exact Himg | split; [exact Hkey |]].
  rewrite (one_request_per_conversion with_key offline showing_result small_png
             data_url Himg Hkey eq_refl).
  reflexivity.
Defined.

Lemma unreadable_image_not_sent_witness :
  image showing_result = Some small_png /\
  JS.truthy (API_KEY with_key) = true /\
  fetched (convert with_key (mkAttempt ReadFailed (FetchFailed "unused"))
                   showing_result) = [].
Proof.
  assert (Himg : image showing_result = Some small_png) by reflexivity.
  assert (Hkey : JS.truthy (API_KEY with_key) = true) by reflexivity.
  split; [exact Himg | split; [exact Hkey |]].
  exact (proj1 (unreadable_image_not_sent with_key
                  (mkAttempt ReadFailed (FetchFailed "unused"))
                  showing_result small_png Himg Hkey eq_refl)).
Defined.

Lemma transport_failure_message_witness :
  image showing_result = Some small_png /\
  JS.truthy (API_KEY with_key) = true /\
  error (convert with_key
           (mkAttempt (Loaded data_url)
              (FetchFailed "NetworkError when attempting to fetch resource."))
           showing_result)
    = "Failed to convert image to LaTeX: NetworkError when attempting to fetch resource.".
Proof.
  split; [reflexivity | split; [reflexivity |]].
  exact (proj1 (transport_failure_message with_key showing_result small_png data_url
                  "NetworkError when attempting to fetch resource."
                  eq_refl eq_refl eq_refl eq_refl eq_refl)).
Defined.

Lemma status_401_invalid_key_witness :
  image showing_result = Some small_png /\
  JS.truthy (API_KEY with_key) = true /\
  error (convert with_key (mkAttempt (Loaded data_url) (Responded denied))
                 showing_result)
    = "Invalid API key. Please check your Anthropic API key in the .env.local file.".
Proof.
  split; [reflexivity | split; [reflexivity |]].
  apply (status_401_invalid_key with_key showing_result small_png data_url denied);
    [reflexivity | reflexivity | reflexivity | reflexivity |].
  intros body [= <-]. split; [discriminate | reflexivity].
Defined.

Lemma status_429_rate_limit_witness :
  image showing_result = Some small_png /\
  JS.truthy (API_KEY with_key) = true /\
  error (convert with_key (mkAttempt (Loaded data_url) (Responded limited_plain))
                 showing_result)
    = "Rate limit exceeded. Please wait a moment and try again.".
Proof.
  split; [reflexivity | split; [reflexivity |]].
  apply (status_429_rate_limit with_key showing_result small_png data_url
           limited_plain
           (JObject [("error", JObject [("type", JString "rate_limit_error");
                                        ("message", JString "Too many requests")])])
           "Too many requests");
    try reflexivity; [discriminate | split; reflexivity].
Defined.

Lemma conversion_forgets_previous_output_witness :
  image showing_result = Some small_png /\
  convert with_key offline (setLatexCode "stale" (setError "old" showing_result))
    = convert with_key offline showing_result.
Proof.
  split; [reflexivity |].
  exact (conversion_forgets_previous_output with_key offline showing_result
           small_png "stale" "old" eq_refl).
Defined.

Lemma run_keeps_tidy_witness :
  copyShown (run no_key [Upload (Some small_png) (Loaded data_url); Convert offline]
                 initial) = true /\
  convertDisabled (run no_key [Upload (Some small_png) (Loaded data_url);
                               Convert offline] initial) = false.
Proof.
  assert (Hc : copyShown (run no_key [Upload (Some small_png) (Loaded data_url);
                                      Convert offline] initial) = true)
    by (vm_compute; reflexivity).
  split; [exact Hc |].
  destruct (run_keeps_tidy no_key [Upload (Some small_png) (Loaded data_url);
                                   Convert offline]) as (_ & _ & _ & H).
  exact (H Hc).
Defined.

Lemma request_carries_instructions_witness :
  JS.includes (newline +:+ "SPECIAL USER INSTRUCTIONS:" +:+ newline +:+
               "theta is an angle" +:+ newline)
              (text (request "k" small_png None "theta is an angle")) = true.
Proof.
  apply (proj1 (request_carries_instructions "k" small_png None "theta is an angle")).
  discriminate.
Defined.

Lemma base64_of_data_url_witness :
  comma_free "data:image/png;base64" = true /\
  comma_free "iVBORw0KGgo=" = true /\
  JS.split_comma_1 data_url = Some "iVBORw0KGgo=".
Proof.
  split; [reflexivity | split; [reflexivity |]].
  exact (proj1 (base64_of_data_url "data:image/png;base64" "iVBORw0KGgo="
                  eq_refl eq_refl)).
Defined.

Lemma size_setting_trailing_text_witness :
  MAX_FILE_SIZE (Some {[ "REACT_APP_MAX_FILE_SIZE_MB" := "10.9 MB" ]})
    = JS.Num 10485760.
Proof.
  apply (size_setting_trailing_text
           {[ "REACT_APP_MAX_FILE_SIZE_MB" := "10.9 MB" ]} 10 "."%char "9 MB");
    [vm_compute; discriminate | vm_compute; reflexivity | reflexivity
    | discriminate | discriminate].
Defined.

Lemma barely_over_message_witness :
  In (ftype (mkFile "image/png" 26214401)) SUPPORTED_FORMATS /\
  validateFile no_key (Some (mkFile "image/png" 26214401)) =
    Some "File size must be less than 25MB. Current size: 25.00MB".
Proof.
  assert (Hin : In (ftype (mkFile "image/png" 26214401)) SUPPORTED_FORMATS)
    by (simpl; tauto).
  split; [exact Hin |].
  apply (barely_over_message no_key (mkFile "image/png" 26214401) 25 1 Hin);
    [reflexivity | lia | reflexivity | lia].
Defined.

Lemma demo_conversion_repeatable_witness :
  API_KEY no_key = "" /\
  image showing_result = Some small_png /\
  convert no_key offline showing_result = showing_result.
Proof.
  assert (Hkey : API_KEY no_key = "") by reflexivity.
  assert (Himg : image showing_result = Some small_png) by reflexivity.
  split; [exact Hkey | split; [exact Himg |]].
  exact (proj2 (demo_conversion_repeatable no_key offline offline
                  (upload no_key (Some small_png) (Loaded data_url) initial)
                  small_png Hkey eq_refl)).
Defined.

Lemma drop_uses_first_file_witness :
  head [text_file; small_png] = Some text_file /\
  rejected (validateFile no_key (Some text_file)) = true /\
  image (handleDrop no_key [text_file; small_png] initial) = None /\
  error (handleDrop no_key [text_file; small_png] initial)
    = "Please upload a valid image file (PNG, JPG, JPEG, GIF, WebP)".
Proof.
  assert (Hh : head [text_file; small_png] = Some text_file) by reflexivity.
  assert (Hr : rejected (validateFile no_key (Some text_file)) = true)
    by (vm_compute; reflexivity).
  destruct (drop_uses_first_file no_key [text_file; small_png] initial) as [H _].
  destruct (H text_file Hh) as (_ & _ & Hrefused).
  destruct (Hrefused Hr) as [Hi He].
  split; [exact Hh | split; [exact Hr | split; [exact Hi | exact He]]].
Defined.

Example trim_unicode : JS.trim padded_text = "x^2".
Proof. vm_compute. reflexivity. Qed.

(** A zero-width space is not white space. *)
Example trim_zero_width :
  JS.trim (bytes [226; 128; 139; 97]%N) = bytes [226; 128; 139; 97]%N.
Proof. vm_compute. reflexivity. Qed.

Example parseInt_nbsp : JS.parseInt (bytes [194; 160; 50; 53]%N) = JS.Num 25.
Proof. vm_compute. reflexivity. Qed.

Lemma stored_result_trimmed_witness :
  image showing_result = Some small_png /\
  JS.truthy (API_KEY with_key) = true /\
  first_block_text padded_body = Of (JString padded_text) /\
  JS.white_len
    (latexCode (convert with_key
                  (mkAttempt (Loaded data_url)
                     (Responded (mkResponse true 200 (Parsed padded_body))))
                  showing_result)) = O.
Proof.
  split; [reflexivity | split; [reflexivity | split; [reflexivity |]]].
  destruct (stored_result_trimmed with_key showing_result small_png data_url
              (mkResponse true 200 (Parsed padded_body)) padded_body padded_text
              eq_refl eq_refl eq_refl eq_refl eq_refl ltac:(discriminate))
    as (_ & H & _).
  exact H.
Defined.

Example stored_result_padded :
  latexCode (convert with_key
               (mkAttempt (Loaded data_url)
                  (Responded (mkResponse true 200 (Parsed padded_body))))
               showing_result) = "x^2".
Proof. vm_compute. reflexivity. Qed.

Lemma blank_text_shows_nothing_witness :
  image showing_result = Some small_png /\
  blank nbsp_text /\
  copyShown (convert with_key
               (mkAttempt (Loaded data_url)
                  (Responded (mkResponse true 200 (Parsed nbsp_body))))
               showing_result) = false.
Proof.
  assert (Hb : blank nbsp_text) by (apply trimStart_blank; reflexivity).
  split; [reflexivity | split; [exact Hb |]].
  exact (proj1 (blank_text_shows_nothing with_key showing_result small_png data_url
                  (mkResponse true 200 (Parsed nbsp_body)) nbsp_body nbsp_text
                  eq_refl eq_refl eq_refl eq_refl eq_refl ltac:(discriminate) Hb)).
Defined.

(** An error detail that is an object with a [toString] entry of its own
    cannot be put in the message: the template literal throws, and the
    [catch] block reports that. *)
Example detail_not_printable :
  error (convert with_key
           (mkAttempt (Loaded data_url)
              (Responded (mkResponse false 401
                 (Parsed (JObject [("error", JObject [("message",
                    JObject [("toString", JNumber true "1")])])])))))
           showing_result)
    = "Failed to convert image to LaTeX: Cannot convert object to primitive value".
Proof. vm_compute. reflexivity. Qed.

(** A successful response whose body is [null]. *)
Example null_body_reported :
  error (convert with_key
           (mkAttempt (Loaded data_url) (Responded (mkResponse true 200 (Parsed JNull))))
           showing_result)
    = "Failed to convert image to LaTeX: Cannot read properties of null (reading 'content')".
Proof. vm_compute. reflexivity. Qed.

(** A successful response whose text is a number. *)
Example number_text_reported :
  error (convert with_key
           (mkAttempt (Loaded data_url)
              (Responded (mkResponse true 200
                 (Parsed (JObject [("content",
                    JArray [JObject [("text", JNumber true "5")]])])))))
           showing_result)
    = "Failed to convert image to LaTeX: data.content[0].text.trim is not a function".
Proof. vm_compute. reflexivity. Qed.
